(** * The BCCSP-backed membership service provider (msp/mspimpl.go)

    A shallow embedding of [bccspmsp] and its methods: [Setup],
    [Validate], [DeserializeIdentity] and [SatisfiesPrincipal], with the
    helpers [getIdentityFromConf], [getSigningIdentityFromConf] and
    [deserializeIdentityInternal].

    Go features are modelled as follows.
    - A function returning [(T, error)] returns a [result T]; a run-time
      panic (an explicit [panic(...)] or a nil dereference) is the third
      outcome [Panic], so that it is never confused with a returned error.
    - A slice is an [option (list A)]: [None] is the nil slice, which the
      source tells apart from an empty one ([idBytes == nil],
      [conf.Admins != nil]).  The fields of the receiver are only indexed
      and ranged over, so they are plain lists ([nil] and empty agree).
    - A pointer that the source compares with nil is an [option].
    - [Setup] mutates its receiver, so it is written in a state monad over
      [bccspmsp]; the read-only methods take the receiver as an argument.
    - The packages the file imports (encoding/pem, crypto/x509, proto,
      bccsp, bccsp/signer) are the fields of the class [World]. *)

From Stdlib Require Import Strings.Byte ZArith.
From stdpp Require Import base tactics option list strings.

Local Open Scope string_scope.
Local Open Scope list_scope.

Module msp.

(** ** Go values *)

(** [[]T]: [None] is the nil slice. *)
Definition slice (A : Type) : Type := option (list A).

(** [range s], and the contents a callee reads: nil behaves as empty. *)
Definition elems {A} (s : slice A) : list A := default [] s.

(** [len(s)] *)
Definition len {A} (s : slice A) : nat := length (elems s).

Definition bytes : Type := slice byte.

#[export] Instance byte_eq_decision : EqDecision byte := Byte.byte_eq_dec.

(** What an imported package returns for [(T, error)]: the value, or the
    text of the error. *)
Inductive outcome (A : Type) : Type :=
| Fine (a : A)
| Failed (err : string).
Arguments Fine {A} a.
Arguments Failed {A} err.

(** ** Errors and panics of this file *)

(** One constructor per [fmt.Errorf] / [errors.New] of the source; the
    arguments are the values the format string prints. *)
Inductive error : Type :=
| ErrNilIdBytes
| ErrConfPemDecode
| ErrConfParseCert (err : string)
| ErrConfImportPublicKey (err : string)
| ErrNilSidInfo
| ErrImportPrivateKey (err : string)
| ErrInitCryptoSigner (err : string)
| ErrNilConf
| ErrUnmarshalConf (err : string)
| ErrNoRootCerts
| ErrInvalidMspInstance
| ErrCAUsedAsIdentity
| ErrVerify (err : string)
| ErrIdentityTypeNotRecognized
| ErrUnmarshalSerializedIdentity (err : string)
| ErrMspIdMismatch (expected received : string)
| ErrPemDecode
| ErrParseCertificate (err : string)
| ErrImportPublicKey (err : string)
| ErrUnmarshalMSPRole (err : string)
| ErrDifferentMSP (expected got : string)
| ErrInvalidRole (role : Z)
| ErrSerialize (err : string)
| ErrIdentitiesDoNotMatch
| ErrInvalidPrincipalType (classification : Z).

(** The message of each error, up to the rendering of [%d] and to
    letters outside ASCII. *)
Definition Error (e : error) : string :=
  match e with
  | ErrNilIdBytes => "getIdentityFromBytes error: nil idBytes"
  | ErrConfPemDecode => "getIdentityFromBytes error: could not decode pem bytes"
  | ErrConfParseCert err =>
      "getIdentityFromBytes error: failed to parse x509 cert, err " +:+ err
  | ErrConfImportPublicKey err =>
      "getIdentityFromBytes error: failed to import certitifacate's public key ["
        +:+ err +:+ "]"
  | ErrNilSidInfo => "getIdentityFromBytes error: nil sidInfo"
  | ErrImportPrivateKey err =>
      "getIdentityFromBytes error: Failed to import EC private key, err " +:+ err
  | ErrInitCryptoSigner err =>
      "getIdentityFromBytes error: Failed initializing CryptoSigner, err " +:+ err
  | ErrNilConf => "Setup error: nil conf reference"
  | ErrUnmarshalConf err => "Failed unmarshalling fabric msp config, err " +:+ err
  | ErrNoRootCerts => "Expected at least one CA certificate"
  | ErrInvalidMspInstance => "Invalid msp instance"
  | ErrCAUsedAsIdentity => "A CA certificate cannot be used directly by this MSP"
  | ErrVerify err =>
      "The supplied identity is not valid, Verify() returned " +:+ err
  | ErrIdentityTypeNotRecognized => "Identity type not recognized"
  | ErrUnmarshalSerializedIdentity err =>
      "Could not deserialize a SerializedIdentity, err " +:+ err
  | ErrMspIdMismatch expected received =>
      "Expected MSP ID " +:+ expected +:+ ", received " +:+ received
  | ErrPemDecode => "Could not decode the PEM structure"
  | ErrParseCertificate err => "ParseCertificate failed " +:+ err
  | ErrImportPublicKey err =>
      "Failed to import certitifacate's public key [" +:+ err +:+ "]"
  | ErrUnmarshalMSPRole err =>
      "Could not unmarshal MSPRole from principal, err " +:+ err
  | ErrDifferentMSP expected got =>
      "The identity is a member of a different MSP (expected " +:+ expected
        +:+ ", got " +:+ got +:+ ")"
  | ErrInvalidRole _ => "Invalid MSP role type %d"
  | ErrSerialize err =>
      "Could not serialize this identity instance, err " +:+ err
  | ErrIdentitiesDoNotMatch => "The identities do not match"
  | ErrInvalidPrincipalType _ => "Invalid principal type %d"
  end.

(** Modelled from the spec: the class ConfigError of sections 4.1 and 7,
    "malformed/missing setup input": the configuration reference is absent
    or unparseable, or it supplies zero root certificates. The errors of
    the certificate ingest and of the key import are of the classes
    DecodeError and ParseError (sections 4.3 and 7), not of this one. *)
Definition ConfigError (e : error) : bool :=
  match e with
  | ErrNilConf | ErrUnmarshalConf _ | ErrNoRootCerts => true
  | _ => false
  end.

(** The errors that are made in [Setup] and in the two ingest routines
    that only [Setup] calls. *)
Definition SetupError (e : error) : bool :=
  match e with
  | ErrNilConf | ErrUnmarshalConf _ | ErrNoRootCerts
  | ErrNilIdBytes | ErrConfPemDecode | ErrConfParseCert _
  | ErrConfImportPublicKey _
  | ErrNilSidInfo | ErrImportPrivateKey _ | ErrInitCryptoSigner _ => true
  | _ => false
  end.

(** How a goroutine dies instead of returning. *)
Inductive panic : Type :=
| NilDereference
| FailedTypeAssertion
| IndexOutOfRange
| Explicit (msg : string).

Inductive result (A : Type) : Type :=
| Ok (a : A)
| Err (e : error)
| Panic (p : panic).
Arguments Ok {A} a.
Arguments Err {A} e.
Arguments Panic {A} p.

#[export] Instance result_ret : MRet result := @Ok.
#[export] Instance result_bind : MBind result := λ A B f r,
  match r with
  | Ok a => f a
  | Err e => Err e
  | Panic p => Panic p
  end.

(** [v, err := f(...); if err != nil { return ..., fmt.Errorf(..., err) }] *)
Definition check {A} (wrap : string → error) (o : outcome A) : result A :=
  match o with
  | Fine a => Ok a
  | Failed err => Err (wrap err)
  end.

(** [p.field] through a pointer [p] that may be nil. *)
Definition deref {A} (p : option A) : result A :=
  match p with
  | Some a => Ok a
  | None => Panic NilDereference
  end.

(** The call returned, with an error. *)
Definition returned_error {A} (r : result A) : Prop := ∃ e, r = Err e.

(** ** Protocol messages (protos/msp, protos/common) *)

Record MSPConfig := { Type_ : Z; Config : bytes }.

Record KeyInfo := { KeyIdentifier : string; KeyMaterial : bytes }.

Record SigningIdentityInfo := {
  PublicSigner : bytes;
  PrivateSigner : option KeyInfo;
}.

Record FabricMSPConfig := {
  Name : string;
  RootCerts : slice bytes;
  IntermediateCerts : slice bytes;
  Admins : slice bytes;
  SigningIdentity : option SigningIdentityInfo;
}.

Record SerializedIdentity := { sid_Mspid : string; sid_IdBytes : bytes }.

(** The enumerations are int32 on the wire: any other number can arrive,
    and the source has a [default] case for it. *)
Inductive MSPPrincipal_Classification : Type :=
| MSPPrincipal_ROLE
| MSPPrincipal_ORGANIZATION_UNIT
| MSPPrincipal_IDENTITY
| MSPPrincipal_other (n : Z).

Inductive MSPRole_MSPRoleType : Type :=
| MSPRole_MEMBER
| MSPRole_ADMIN
| MSPRole_other (n : Z).

Record MSPPrincipal := {
  PrincipalClassification : MSPPrincipal_Classification;
  Principal : bytes;
}.

Record MSPRole := { MSPIdentifier : string; Role : MSPRole_MSPRoleType }.

Record pem_Block := { Bytes : list byte }.

(** The methods of the interface [bccsp.BCCSP] that the provider calls:
    [KeyImport] with [X509PublicKeyImportOpts] and with
    [ECDSAPrivateKeyImportOpts]. *)
Record BCCSP_over (Certificate Key : Type) := {
  KeyImport_X509PublicKey : Certificate → outcome Key;
  KeyImport_ECDSAPrivateKey : list byte → outcome Key;
}.
Arguments KeyImport_X509PublicKey {Certificate Key} _ _.
Arguments KeyImport_ECDSAPrivateKey {Certificate Key} _ _.

(** ** The imported packages *)

Class World : Type := {
  (** crypto/x509 *)
  Certificate : Type;
  cert_Raw : Certificate → list byte;
  cert_IsCA : Certificate → bool;
  x509_ParseCertificate : list byte → outcome Certificate;
  (** [cert.Verify(opts)], as its error: the roots and the intermediates
      of the options, in the order they were added *)
  Certificate_Verify :
    Certificate → list Certificate → list Certificate → option string;
  (** bccsp: key handles, and the public key a handle stands for *)
  Key : Type;
  Key_PublicKey : Key → list byte;
  (** bccsp/signer: a signer, and the public key it signs for *)
  CryptoSigner : Type;
  CryptoSigner_Public : CryptoSigner → list byte;
  CryptoSigner_Init : BCCSP_over Certificate Key → Key → outcome CryptoSigner;
  (** encoding/pem: [pem.Decode] (first result) and [pem.EncodeToMemory] *)
  pem_Decode : list byte → option pem_Block;
  pem_EncodeToMemory : pem_Block → option (list byte);
  (** proto.Unmarshal at the three message types, and proto.Marshal *)
  Unmarshal_FabricMSPConfig : list byte → outcome FabricMSPConfig;
  Unmarshal_SerializedIdentity : list byte → outcome SerializedIdentity;
  Unmarshal_MSPRole : list byte → outcome MSPRole;
  Marshal_SerializedIdentity : SerializedIdentity → outcome (list byte);
}.

Section MSP.
Context `{W : World}.

Record CertPool := { certs : list Certificate }.

Definition NewCertPool : CertPool := {| certs := [] |}.
Definition AddCert (c : Certificate) (p : CertPool) : CertPool :=
  {| certs := certs p ++ [c] |}.

Record VerifyOptions := { Roots : CertPool; Intermediates : CertPool }.

Definition BCCSP : Type := BCCSP_over Certificate Key.

(** ** Identities (msp/identities.go) *)

Record IdentityIdentifier := { Mspid : string; Id : string }.

(** Modelled from the spec: the struct [identity] of identities.go, which
    is not part of this file. Section 3: an identifier (provider name and
    local id), the parsed certificate and the public key handle. The
    back-reference to the owning provider is read by none of the methods
    below and is left out. *)
Record identity := {
  ident : IdentityIdentifier;
  cert : Certificate;
  pk : Key;
}.

(** Modelled from the spec: the signing identity of identities.go, an
    identity plus the signer handle (section 3). *)
Record signingidentity := {
  base : identity;
  cryptoSigner : CryptoSigner;
}.

(** Modelled from the spec: what an implementation of the interface
    [Identity] other than [*identity] answers to the two methods this
    file calls. *)
Record foreignIdentity := {
  foreign_MSPIdentifier : string;
  foreign_Serialize : outcome (list byte);
}.

(** A value of the interface type [Identity], by dynamic type. *)
Inductive Identity : Type :=
| NilIdentity
| X509Identity (i : identity)
| ForeignIdentity (f : foreignIdentity).

(** Modelled from the spec: the constructors [newIdentity] and
    [newSigningIdentity] of identities.go, which keep their arguments. *)
Definition newIdentity (id : IdentityIdentifier) (c : Certificate) (k : Key)
  : Identity :=
  X509Identity {| ident := id; cert := c; pk := k |}.

Definition newSigningIdentity (id : IdentityIdentifier) (c : Certificate)
    (k : Key) (s : CryptoSigner) : signingidentity :=
  {| base := {| ident := id; cert := c; pk := k |}; cryptoSigner := s |}.

(** the type assertion of [id] to a pointer to [identity] *)
Definition as_identity (id : Identity) : result identity :=
  match id with
  | X509Identity i => Ok i
  | _ => Panic FailedTypeAssertion
  end.

(** Modelled from the spec: [id.GetMSPIdentifier()], the provider name of
    the identifier (section 3, "the identity's claimed provider"). *)
Definition GetMSPIdentifier (id : Identity) : result string :=
  match id with
  | NilIdentity => Panic NilDereference
  | X509Identity i => Ok (Mspid (ident i))
  | ForeignIdentity f => Ok (foreign_MSPIdentifier f)
  end.

(** Modelled from the spec: [id.Serialize()], the wire record
    [{mspId, idBytes}] of sections 3 and 6, whose [idBytes] is the PEM
    block of the certificate's DER bytes. *)
Definition serialize (i : identity) : outcome (list byte) :=
  match pem_EncodeToMemory {| Bytes := cert_Raw (cert i) |} with
  | None => Failed "Encoding of identitiy failed"
  | Some pemBytes =>
      Marshal_SerializedIdentity
        {| sid_Mspid := Mspid (ident i); sid_IdBytes := Some pemBytes |}
  end.

Definition Serialize (id : Identity) : result (outcome (list byte)) :=
  match id with
  | NilIdentity => Panic NilDereference
  | X509Identity i => Ok (serialize i)
  | ForeignIdentity f => Ok (foreign_Serialize f)
  end.

(** ** The provider *)

Record bccspmsp := {
  rootCerts : list Identity;
  intermediateCerts : list Identity;
  signer : option signingidentity;
  admins : list Identity;
  bccsp : BCCSP;
  name : string;
  opts : option VerifyOptions;
}.

(** [theMsp := &bccspmsp{}; theMsp.bccsp = bccsp] *)
Definition NewBccspMsp (sw : outcome BCCSP) : outcome bccspmsp :=
  match sw with
  | Failed err => Failed ("Failed initiliazing BCCSP [" +:+ err +:+ "]")
  | Fine csp =>
      Fine {| rootCerts := []; intermediateCerts := []; signer := None;
              admins := []; bccsp := csp; name := ""; opts := None |}
  end.

Definition getIdentityFromConf (msp : bccspmsp) (idBytes : bytes)
  : result Identity :=
  match idBytes with
  | None => Err ErrNilIdBytes
  | Some idBytes =>
      match pem_Decode idBytes with
      | None => Err ErrConfPemDecode
      | Some pemCert =>
          cert ← check ErrConfParseCert (x509_ParseCertificate (Bytes pemCert));
          certPubK ← check ErrConfImportPublicKey
                       (KeyImport_X509PublicKey (bccsp msp) cert);
          Ok (newIdentity {| Mspid := name msp; Id := "IDENTITY" |}
                cert certPubK)
      end
  end.

Definition getSigningIdentityFromConf (msp : bccspmsp)
    (sidInfo : option SigningIdentityInfo) : result signingidentity :=
  match sidInfo with
  | None => Err ErrNilSidInfo
  | Some sidInfo =>
      idPub ← getIdentityFromConf msp (PublicSigner sidInfo);
      privateSigner ← deref (PrivateSigner sidInfo);
      pemKey ← deref (pem_Decode (elems (KeyMaterial privateSigner)));
      key ← check ErrImportPrivateKey
              (KeyImport_ECDSAPrivateKey (bccsp msp) (Bytes pemKey));
      peerSigner ← check ErrInitCryptoSigner
                     (CryptoSigner_Init (bccsp msp) key);
      idPub ← as_identity idPub;
      Ok (newSigningIdentity {| Mspid := name msp; Id := "DEFAULT" |}
            (cert idPub) (pk idPub) peerSigner)
  end.

(** ** Setup *)

(** [Setup] assigns to the fields of its receiver as it goes: a
    computation takes the provider before and returns its outcome with
    the provider after, also when it stops early. *)
Definition M (A : Type) : Type := bccspmsp → result A * bccspmsp.

#[global] Instance M_ret : MRet M := λ A a msp, (Ok a, msp).
#[global] Instance M_bind : MBind M := λ A B f m msp,
  match m msp with
  | (Ok a, msp') => f a msp'
  | (Err e, msp') => (Err e, msp')
  | (Panic p, msp') => (Panic p, msp')
  end.

(** A method that only reads the receiver. *)
Definition call {A} (f : bccspmsp → result A) : M A := λ msp, (f msp, msp).
(** [msp.field = v] *)
Definition assign (f : bccspmsp → bccspmsp) : M unit := λ msp, (Ok (), f msp).
(** [return err] *)
Definition raise {A} (e : error) : M A := λ msp, (Err e, msp).

Definition set_rootCerts (v : list Identity) (m : bccspmsp) : bccspmsp :=
  {| rootCerts := v; intermediateCerts := intermediateCerts m;
     signer := signer m; admins := admins m; bccsp := bccsp m;
     name := name m; opts := opts m |}.
Definition set_intermediateCerts (v : list Identity) (m : bccspmsp) : bccspmsp :=
  {| rootCerts := rootCerts m; intermediateCerts := v;
     signer := signer m; admins := admins m; bccsp := bccsp m;
     name := name m; opts := opts m |}.
Definition set_signer (v : option signingidentity) (m : bccspmsp) : bccspmsp :=
  {| rootCerts := rootCerts m; intermediateCerts := intermediateCerts m;
     signer := v; admins := admins m; bccsp := bccsp m;
     name := name m; opts := opts m |}.
Definition set_admins (v : list Identity) (m : bccspmsp) : bccspmsp :=
  {| rootCerts := rootCerts m; intermediateCerts := intermediateCerts m;
     signer := signer m; admins := v; bccsp := bccsp m;
     name := name m; opts := opts m |}.
Definition set_name (v : string) (m : bccspmsp) : bccspmsp :=
  {| rootCerts := rootCerts m; intermediateCerts := intermediateCerts m;
     signer := signer m; admins := admins m; bccsp := bccsp m;
     name := v; opts := opts m |}.
Definition set_opts (v : option VerifyOptions) (m : bccspmsp) : bccspmsp :=
  {| rootCerts := rootCerts m; intermediateCerts := intermediateCerts m;
     signer := signer m; admins := admins m; bccsp := bccsp m;
     name := name m; opts := v |}.

(** One of the three slice fields that [Setup] fills. *)
Inductive certField : Type := fieldAdmins | fieldRootCerts | fieldIntermediateCerts.

Definition get (f : certField) : bccspmsp → list Identity :=
  match f with
  | fieldAdmins => admins
  | fieldRootCerts => rootCerts
  | fieldIntermediateCerts => intermediateCerts
  end.

Definition set (f : certField) : list Identity → bccspmsp → bccspmsp :=
  match f with
  | fieldAdmins => set_admins
  | fieldRootCerts => set_rootCerts
  | fieldIntermediateCerts => set_intermediateCerts
  end.

(** [make([]Identity, n)]: [n] nil interface values. *)
Definition make (n : nat) : list Identity := replicate n NilIdentity.

(** [msp.field[i] = id], with the bounds check of an indexed store. *)
Definition store (f : certField) (i : nat) (id : Identity) : M unit :=
  λ msp,
    if decide (i < length (get f msp))%nat
    then (Ok (), set f (<[i:=id]> (get f msp)) msp)
    else (Panic IndexOutOfRange, msp).

(** The loop the three fields share, from index [i] on:
    [for i, c := range blobs {
       id, err := msp.getIdentityFromConf(c)
       if err != nil { return err }
       msp.field[i] = id }] *)
Fixpoint fill (f : certField) (i : nat) (blobs : list bytes) : M unit :=
  match blobs with
  | [] => mret ()
  | c :: blobs =>
      id ← call (λ msp, getIdentityFromConf msp c);
      store f i id;;
      fill f (S i) blobs
  end.

(** make and fill the set of admin certs (if present) *)
Definition setupAdmins (conf : FabricMSPConfig) : M unit :=
  match Admins conf with
  | Some confAdmins =>
      assign (set_admins (make (length confAdmins)));;
      fill fieldAdmins 0 confAdmins
  | None => mret ()
  end.

(** make and fill the set of CA certs - we expect them to be there *)
Definition setupRootCerts (conf : FabricMSPConfig) : M unit :=
  if bool_decide (len (RootCerts conf) = 0) then raise ErrNoRootCerts
  else
    assign (set_rootCerts (make (len (RootCerts conf))));;
    fill fieldRootCerts 0 (elems (RootCerts conf)).

(** make and fill the set of intermediate certs (if present) *)
Definition setupIntermediateCerts (conf : FabricMSPConfig) : M unit :=
  match IntermediateCerts conf with
  | Some confIntermediateCerts =>
      assign (set_intermediateCerts (make (length confIntermediateCerts)));;
      fill fieldIntermediateCerts 0 confIntermediateCerts
  | None => assign (set_intermediateCerts (make 0))
  end.

(** setup the signer (if present) *)
Definition setupSigner (conf : FabricMSPConfig) : M unit :=
  match SigningIdentity conf with
  | Some sidInfo =>
      sid ← call (λ msp, getSigningIdentityFromConf msp (Some sidInfo));
      assign (set_signer (Some sid))
  | None => mret ()
  end.

(** [msp.opts.Roots.AddCert(c)] and [msp.opts.Intermediates.AddCert(c)] *)
Definition addRoot (c : Certificate) : M unit :=
  o ← call (λ msp, deref (opts msp));
  assign (set_opts (Some {| Roots := AddCert c (Roots o);
                            Intermediates := Intermediates o |})).

Definition addIntermediate (c : Certificate) : M unit :=
  o ← call (λ msp, deref (opts msp));
  assign (set_opts (Some {| Roots := Roots o;
                            Intermediates := AddCert c (Intermediates o) |})).

(** [for _, v := range ids { add(v.( *identity).cert) }] *)
Fixpoint addCerts (add : Certificate → M unit) (ids : list Identity) : M unit :=
  match ids with
  | [] => mret ()
  | v :: ids =>
      v ← call (λ _, as_identity v);
      add (cert v);;
      addCerts add ids
  end.

(** pre-create the verify options with roots and intermediates *)
Definition setupOpts : M unit :=
  assign (set_opts (Some {| Roots := NewCertPool;
                            Intermediates := NewCertPool |}));;
  roots ← call (λ msp, Ok (rootCerts msp));
  addCerts addRoot roots;;
  intermediates ← call (λ msp, Ok (intermediateCerts msp));
  addCerts addIntermediate intermediates.

Definition Setup (conf1 : option MSPConfig) : M unit :=
  match conf1 with
  | None => raise ErrNilConf
  | Some conf1 =>
      conf ← call (λ _, check ErrUnmarshalConf
                          (Unmarshal_FabricMSPConfig (elems (Config conf1))));
      assign (set_name (Name conf));;
      setupAdmins conf;;
      setupRootCerts conf;;
      setupIntermediateCerts conf;;
      setupSigner conf;;
      setupOpts
  end.

(** A step of [Setup] that ends normally or returns one of the errors of
    [Setup], and does not panic. *)
Definition ok_or_SetupError (r : result unit) : Prop :=
  r = Ok () ∨ ∃ e, r = Err e ∧ SetupError e = true.

Definition Validate (msp : bccspmsp) (id : Identity) : result unit :=
  match id with
  | X509Identity id =>
      match opts msp with
      | None => Err ErrInvalidMspInstance
      | Some o =>
          if cert_IsCA (cert id) then Err ErrCAUsedAsIdentity
          else match Certificate_Verify (cert id) (certs (Roots o))
                        (certs (Intermediates o)) with
               | Some err => Err (ErrVerify err)
               | None => Ok ()
               end
      end
  | _ => Err ErrIdentityTypeNotRecognized
  end.

Definition deserializeIdentityInternal (msp : bccspmsp)
    (serializedIdentity : bytes) : result Identity :=
  match pem_Decode (elems serializedIdentity) with
  | None => Err ErrPemDecode
  | Some bl =>
      cert ← check ErrParseCertificate (x509_ParseCertificate (Bytes bl));
      let id := {| Mspid := name msp; Id := "DEFAULT" |} in
      pub ← check ErrImportPublicKey (KeyImport_X509PublicKey (bccsp msp) cert);
      Ok (newIdentity id cert pub)
  end.

Definition DeserializeIdentity (msp : bccspmsp) (serializedID : bytes)
  : result Identity :=
  sId ← check ErrUnmarshalSerializedIdentity
          (Unmarshal_SerializedIdentity (elems serializedID));
  if negb (String.eqb (sid_Mspid sId) (name msp))
  then Err (ErrMspIdMismatch (name msp) (sid_Mspid sId))
  else deserializeIdentityInternal msp (sid_IdBytes sId).

Definition SatisfiesPrincipal (msp : bccspmsp) (id : Identity)
    (principal : option MSPPrincipal) : result unit :=
  principal ← deref principal;
  match PrincipalClassification principal with
  | MSPPrincipal_ROLE =>
      mspRole ← check ErrUnmarshalMSPRole
                  (Unmarshal_MSPRole (elems (Principal principal)));
      if negb (String.eqb (MSPIdentifier mspRole) (name msp))
      then got ← GetMSPIdentifier id;
           Err (ErrDifferentMSP (MSPIdentifier mspRole) got)
      else match Role mspRole with
           | MSPRole_MEMBER => Validate msp id
           | MSPRole_ADMIN => Panic (Explicit "Not yet implemented")
           | MSPRole_other n => Err (ErrInvalidRole n)
           end
  | MSPPrincipal_IDENTITY =>
      s ← Serialize id;
      idBytes ← check ErrSerialize s;
      (* bytes.Compare(idBytes, principal.Principal) == 0 *)
      if bool_decide (idBytes = elems (Principal principal))
      then Ok ()
      else Err ErrIdentitiesDoNotMatch
  | MSPPrincipal_ORGANIZATION_UNIT => Panic (Explicit "Not yet implemented")
  | MSPPrincipal_other n => Err (ErrInvalidPrincipalType n)
  end.

(** ** Accessors

    The three accessors raise none of the errors above; their [error]
    result is given as its text. *)

Definition GetIdentifier (msp : bccspmsp) : outcome string := Fine (name msp).

Definition GetDefaultSigningIdentity (msp : bccspmsp)
  : outcome signingidentity :=
  match signer msp with
  | None =>
      Failed "This MSP does not possess a valid default signing identity"
  | Some sid => Fine sid
  end.

(** [return nil, nil] *)
Definition GetSigningIdentity (msp : bccspmsp) (identifier : IdentityIdentifier)
  : outcome (option signingidentity) :=
  Fine None.

(** ** Vocabulary for the properties of [Setup] *)

(** [ids] are the identities that the ingest routine makes of [blobs],
    one for one and in order. *)
Definition ingested (msp : bccspmsp) (blobs : list bytes) (ids : list Identity)
  : Prop :=
  Forall2 (λ b id, getIdentityFromConf msp b = Ok id) blobs ids.

(** The certificate that the ingest routine decodes and parses from a
    blob (lines 83-98 of [getIdentityFromConf]), if it gets that far. *)
Definition certificateOf (b : bytes) : option Certificate :=
  match b with
  | None => None
  | Some idBytes =>
      match pem_Decode idBytes with
      | None => None
      | Some pemCert =>
          match x509_ParseCertificate (Bytes pemCert) with
          | Fine c => Some c
          | Failed _ => None
          end
      end
  end.

(** The certificates of the identities of a slice, in order: what the
    two loops at the end of [Setup] add to a pool. *)
Definition certificates (ids : list Identity) : list Certificate :=
  omap (λ id, match id with
              | X509Identity i => Some (cert i)
              | _ => None
              end) ids.

Definition pools (roots intermediates : list Identity) : VerifyOptions :=
  {| Roots := {| certs := certificates roots |};
     Intermediates := {| certs := certificates intermediates |} |}.

(** What a successful [Setup] with the configuration [conf] makes of the
    provider [msp]: the name of the configuration; the identities
    ingested from its admin, root and intermediate blobs (the old admins
    when the configuration has no admin list); the signing identity built
    from its record (the old signer when it has none); the pools of the
    root and intermediate certificates. *)
Definition configured (msp : bccspmsp) (conf : FabricMSPConfig)
    (msp' : bccspmsp) : Prop :=
  ∃ la lr li sg,
    match Admins conf with
    | None => la = admins msp
    | Some confAdmins => ingested (set_name (Name conf) msp) confAdmins la
    end
    ∧ len (RootCerts conf) ≠ 0
    ∧ ingested (set_name (Name conf) msp) (elems (RootCerts conf)) lr
    ∧ ingested (set_name (Name conf) msp) (elems (IntermediateCerts conf)) li
    ∧ match SigningIdentity conf with
      | None => sg = signer msp
      | Some sidInfo =>
          ∃ sid, getSigningIdentityFromConf (set_name (Name conf) msp)
                   (Some sidInfo) = Ok sid
                 ∧ sg = Some sid
      end
    ∧ msp' = {| rootCerts := lr; intermediateCerts := li; signer := sg;
                admins := la; bccsp := bccsp msp; name := Name conf;
                opts := Some (pools lr li) |}.

End MSP.

Arguments bccspmsp {W}.
Arguments identity {W}.
Arguments Identity {W}.
Arguments signingidentity {W}.
Arguments BCCSP {W}.

(** ** A small world to run the code in

    Certificates, keys and wire formats are reduced to a few readable
    bytes, so that the functions above evaluate on concrete inputs.
    - DER certificate: ['0'], then ['C'] (a CA) or ['E'] (an end entity),
      then the byte naming the issuer's key, then the subject's key.
    - PEM: ['-'] followed by the payload.
    - A private key is its scalar; the public key that belongs to it is
      written with the same bytes.
    - Configuration: lines separated by a newline, the first byte of a
      line naming the field ([N]ame, [A]dmin, [R]oot, [I]ntermediate,
      [P]ublic signer, [K]ey material).
    - SerializedIdentity: the provider name, a zero byte, the PEM bytes.
    - MSPRole: ['M'] or ['A'] or another role byte, then the provider
      name. *)
Module Toy.

Record certificate := {
  raw : list byte;
  isCA : bool;
  issuer : byte;
  key : list byte;
}.

Definition parseCertificate (der : list byte) : outcome certificate :=
  match der with
  | x30 :: x43 :: i :: k =>
      Fine {| raw := der; isCA := true; issuer := i; key := k |}
  | x30 :: x45 :: i :: k =>
      Fine {| raw := der; isCA := false; issuer := i; key := k |}
  | _ => Failed "asn1: structure error"
  end.

Definition signedBy (c : certificate) (ca : certificate) : bool :=
  match key ca with
  | k :: _ => Byte.eqb k (issuer c)
  | [] => false
  end.

Definition verify (c : certificate) (roots intermediates : list certificate)
  : option string :=
  if existsb (signedBy c) (roots ++ intermediates) then None
  else Some "x509: certificate signed by unknown authority".

Record keyHandle := { public : list byte; private : bool }.

Definition importPublicKey (c : certificate) : outcome keyHandle :=
  Fine {| public := key c; private := false |}.

Definition importPrivateKey (der : list byte) : outcome keyHandle :=
  match der with
  | [] => Failed "Invalid raw. Zero length."
  | _ => Fine {| public := der; private := true |}
  end.

Definition csp : BCCSP_over certificate keyHandle :=
  {| KeyImport_X509PublicKey := importPublicKey;
     KeyImport_ECDSAPrivateKey := importPrivateKey |}.

Definition initSigner (_ : BCCSP_over certificate keyHandle) (k : keyHandle)
  : outcome keyHandle :=
  if private k then Fine k else Failed "Invalid Key. Not private.".

Definition pemDecode (text : list byte) : option pem_Block :=
  match text with
  | x2d :: payload => Some {| Bytes := payload |}
  | _ => None
  end.

Definition pemEncode (b : pem_Block) : option (list byte) :=
  Some (x2d :: Bytes b).

(** The part before the first [sep], and the part after it. *)
Fixpoint cut (sep : byte) (l : list byte) : option (list byte * list byte) :=
  match l with
  | [] => None
  | b :: l =>
      if Byte.eqb b sep then Some ([], l)
      else match cut sep l with
           | Some (h, t) => Some (b :: h, t)
           | None => None
           end
  end.

Fixpoint split_on (sep : byte) (l : list byte) : list (list byte) :=
  match l with
  | [] => [[]]
  | b :: l =>
      if Byte.eqb b sep then [] :: split_on sep l
      else match split_on sep l with
           | h :: t => (b :: h) :: t
           | [] => [[b]]
           end
  end.

Definition emptyConf : FabricMSPConfig :=
  {| Name := ""; RootCerts := None; IntermediateCerts := None;
     Admins := None; SigningIdentity := None |}.

Definition push (s : slice bytes) (v : list byte) : slice bytes :=
  Some (elems s ++ [Some v]).

Definition confLine (acc : outcome FabricMSPConfig) (line : list byte)
  : outcome FabricMSPConfig :=
  match acc, line with
  | Failed err, _ => Failed err
  | Fine c, [] => Fine c
  | Fine c, x4e :: v =>
      Fine {| Name := String.string_of_list_byte v; RootCerts := RootCerts c;
              IntermediateCerts := IntermediateCerts c; Admins := Admins c;
              SigningIdentity := SigningIdentity c |}
  | Fine c, x52 :: v =>
      Fine {| Name := Name c; RootCerts := push (RootCerts c) v;
              IntermediateCerts := IntermediateCerts c; Admins := Admins c;
              SigningIdentity := SigningIdentity c |}
  | Fine c, x49 :: v =>
      Fine {| Name := Name c; RootCerts := RootCerts c;
              IntermediateCerts := push (IntermediateCerts c) v;
              Admins := Admins c; SigningIdentity := SigningIdentity c |}
  | Fine c, x41 :: v =>
      Fine {| Name := Name c; RootCerts := RootCerts c;
              IntermediateCerts := IntermediateCerts c;
              Admins := push (Admins c) v;
              SigningIdentity := SigningIdentity c |}
  | Fine c, x50 :: v =>
      Fine {| Name := Name c; RootCerts := RootCerts c;
              IntermediateCerts := IntermediateCerts c; Admins := Admins c;
              SigningIdentity :=
                Some {| PublicSigner := Some v;
                        PrivateSigner :=
                          default None (PrivateSigner <$> SigningIdentity c) |} |}
  | Fine c, x4b :: v =>
      Fine {| Name := Name c; RootCerts := RootCerts c;
              IntermediateCerts := IntermediateCerts c; Admins := Admins c;
              SigningIdentity :=
                Some {| PublicSigner :=
                          default None (PublicSigner <$> SigningIdentity c);
                        PrivateSigner :=
                          Some {| KeyIdentifier := ""; KeyMaterial := Some v |} |} |}
  | Fine _, _ => Failed "proto: illegal tag"
  end.

Definition unmarshalConf (b : list byte) : outcome FabricMSPConfig :=
  match b with
  | [] => Failed "proto: unexpected EOF"
  | _ => foldl confLine (Fine emptyConf) (split_on x0a b)
  end.

Definition unmarshalSerializedIdentity (b : list byte)
  : outcome SerializedIdentity :=
  match cut x00 b with
  | Some (h, t) =>
      Fine {| sid_Mspid := String.string_of_list_byte h; sid_IdBytes := Some t |}
  | None => Failed "proto: unexpected EOF"
  end.

Definition marshalSerializedIdentity (r : SerializedIdentity)
  : outcome (list byte) :=
  Fine (String.list_byte_of_string (sid_Mspid r) ++ x00 :: elems (sid_IdBytes r)).

Definition unmarshalRole (b : list byte) : outcome MSPRole :=
  match b with
  | [] => Failed "proto: unexpected EOF"
  | x4d :: n =>
      Fine {| MSPIdentifier := String.string_of_list_byte n; Role := MSPRole_MEMBER |}
  | x41 :: n =>
      Fine {| MSPIdentifier := String.string_of_list_byte n; Role := MSPRole_ADMIN |}
  | r :: n =>
      Fine {| MSPIdentifier := String.string_of_list_byte n;
              Role := MSPRole_other (Z.of_N (Byte.to_N r)) |}
  end.

Definition world : World :=
  {| Certificate := certificate;
     cert_Raw := raw;
     cert_IsCA := isCA;
     x509_ParseCertificate := parseCertificate;
     Certificate_Verify := verify;
     Key := keyHandle;
     Key_PublicKey := public;
     CryptoSigner := keyHandle;
     CryptoSigner_Public := public;
     CryptoSigner_Init := initSigner;
     pem_Decode := pemDecode;
     pem_EncodeToMemory := pemEncode;
     Unmarshal_FabricMSPConfig := unmarshalConf;
     Unmarshal_SerializedIdentity := unmarshalSerializedIdentity;
     Unmarshal_MSPRole := unmarshalRole;
     Marshal_SerializedIdentity := marshalSerializedIdentity |}.

(** Text as bytes, and lines joined by newlines. *)
Definition text (s : string) : list byte := String.list_byte_of_string s.

Fixpoint unlines (ls : list string) : list byte :=
  match ls with
  | [] => []
  | [l] => text l
  | l :: ls => text l ++ x0a :: unlines ls
  end.

Definition mspConfig (ls : list string) : MSPConfig :=
  {| Type_ := 0; Config := Some (unlines ls) |}.

Definition conf (ls : list string) : option MSPConfig := Some (mspConfig ls).

(** A provider on which [Setup] never ran. *)
Definition fresh : @bccspmsp world :=
  {| rootCerts := []; intermediateCerts := []; signer := None; admins := [];
     bccsp := (csp : @BCCSP world); name := ""; opts := None |}.

(** Root CA with key [r]; alice an end entity signed by it. *)
Definition org1 : @bccspmsp world :=
  (Setup (conf ["Norg1"; "R-0Crr"; "A-0Era"]) fresh).2.

(** A second provider that trusts the same root. *)
Definition org2 : @bccspmsp world :=
  (Setup (conf ["Norg2"; "R-0Crr"]) fresh).2.

Definition wire (mspid pemCert : string) : bytes :=
  Some (text mspid ++ x00 :: text pemCert).

Definition identityOf (r : result (@Identity world)) : @Identity world :=
  match r with
  | Ok id => id
  | _ => NilIdentity
  end.

(** bob, deserialized by org1; mallory, deserialized by org2; the root
    certificate itself presented as an identity of org1. *)
Definition bob : @Identity world :=
  identityOf (DeserializeIdentity org1 (wire "org1" "-0Erb")).
Definition mallory : @Identity world :=
  identityOf (DeserializeIdentity org2 (wire "org2" "-0Erm")).
Definition rootIdentity : @identity world :=
  {| ident := {| Mspid := "org1"; Id := "DEFAULT" |};
     cert := ({| raw := text "0Crr"; isCA := true; issuer := "r";
                 key := text "r" |} : @Certificate world);
     pk := ({| public := text "r"; private := false |} : @Key world) |}.

(** alice, the admin that [Setup] ingested into org1. *)
Definition alice : @identity world :=
  {| ident := {| Mspid := "org1"; Id := "IDENTITY" |};
     cert := ({| raw := text "0Era"; isCA := false; issuer := "r";
                 key := text "a" |} : @Certificate world);
     pk := ({| public := text "a"; private := false |} : @Key world) |}.

(** What the configuration written as [ls] unmarshals to. *)
Definition parsed (ls : list string) : FabricMSPConfig :=
  match unmarshalConf (unlines ls) with
  | Fine c => c
  | Failed _ => emptyConf
  end.

(** A signing identity with the certificate of alice (key [a]) and a
    signer for the private key [b]. *)
Definition aliceWithKeyOfBob : @signingidentity world :=
  {| base := {| ident := {| Mspid := "org1"; Id := "DEFAULT" |};
                cert := cert alice; pk := pk alice |};
     cryptoSigner := ({| public := text "b"; private := true |}
                      : @CryptoSigner world) |}.

(** The configuration of org1, one with an intermediate CA and a signing
    identity (certificate and private key of [s]), and one that renames
    the provider and brings neither admins nor a signing identity. *)
Definition org1Lines : list string := ["Norg1"; "R-0Crr"; "A-0Era"].
Definition fullLines : list string :=
  ["Norg1"; "R-0Crr"; "I-0Cri"; "A-0Era"; "P-0Eis"; "K-s"].
Definition renameLines : list string := ["Norg3"; "R-0Crr"].

Definition full : @bccspmsp world := (Setup (conf fullLines) fresh).2.

(** A provider written out field by field: named [old], with alice as
    admin, a signer, one intermediate, and neither roots nor options. *)
Definition seeded : @bccspmsp world :=
  {| rootCerts := [];
     intermediateCerts := [X509Identity rootIdentity];
     signer := Some aliceWithKeyOfBob;
     admins := [X509Identity alice];
     bccsp := (csp : @BCCSP world);
     name := "old";
     opts := None |}.

Definition renamed : @bccspmsp world := (Setup (conf renameLines) seeded).2.

(** The provider org1, written out field by field. *)
Definition org1Fields : @bccspmsp world :=
  {| rootCerts :=
       [X509Identity {| ident := {| Mspid := "org1"; Id := "IDENTITY" |};
                        cert := cert rootIdentity; pk := pk rootIdentity |}];
     intermediateCerts := [];
     signer := None;
     admins := [X509Identity alice];
     bccsp := (csp : @BCCSP world);
     name := "org1";
     opts := Some {| Roots := {| certs := [cert rootIdentity] |};
                     Intermediates := {| certs := [] |} |} |}.

Definition identityPrincipal (payload : bytes) : MSPPrincipal :=
  {| PrincipalClassification := MSPPrincipal_IDENTITY; Principal := payload |}.

Definition rolePrincipal (payload : string) : MSPPrincipal :=
  {| PrincipalClassification := MSPPrincipal_ROLE;
     Principal := Some (text payload) |}.

Definition orgUnitPrincipal (payload : string) : MSPPrincipal :=
  {| PrincipalClassification := MSPPrincipal_ORGANIZATION_UNIT;
     Principal := Some (text payload) |}.

End Toy.


(** * Properties *)

(** Closed facts about the small world are settled by evaluation. *)
Ltac run :=
  lazymatch goal with
  | |- _ = _ => reflexivity
  | |- _ ≠ _ => let H := fresh in intros H; discriminate H
  | |- ¬ returned_error _ =>
      let e := fresh in let H := fresh in intros [e H]; discriminate H
  end.

(** ** Principals *)

Section Principals.
Context `{W : World}.
Implicit Types (msp : bccspmsp) (id : Identity) (p : MSPPrincipal).

Lemma SatisfiesPrincipal_ROLE msp id p mspRole :
  PrincipalClassification p = MSPPrincipal_ROLE →
  Unmarshal_MSPRole (elems (Principal p)) = Fine mspRole →
  SatisfiesPrincipal msp id (Some p) =
    if String.eqb (MSPIdentifier mspRole) (name msp)
    then match Role mspRole with
         | MSPRole_MEMBER => Validate msp id
         | MSPRole_ADMIN => Panic (Explicit "Not yet implemented")
         | MSPRole_other n => Err (ErrInvalidRole n)
         end
    else got ← GetMSPIdentifier id;
         Err (ErrDifferentMSP (MSPIdentifier mspRole) got).
Proof.
  intros Hclass Hrole. unfold SatisfiesPrincipal. cbn.
  rewrite Hclass, Hrole. cbn.
  by destruct (String.eqb _ _).
Qed.

Lemma SatisfiesPrincipal_ORGANIZATION_UNIT msp id p :
  PrincipalClassification p = MSPPrincipal_ORGANIZATION_UNIT →
  SatisfiesPrincipal msp id (Some p) = Panic (Explicit "Not yet implemented").
Proof. intros Hclass. unfold SatisfiesPrincipal. cbn. by rewrite Hclass. Qed.

(** C1, as the code has it. For an ORGANIZATION_UNIT principal, and for a
    ROLE principal that decodes to the role ADMIN, SatisfiesPrincipal
    never returns success. It does not return a "not implemented" error
    either: when the principal is ORGANIZATION_UNIT, or names this
    provider, the call stops in [panic("Not yet implemented")]; when the
    ADMIN principal names another provider, the name check comes first and
    the different-MSP error is returned. *)
Theorem SatisfiesPrincipal_unimplemented msp id p mspRole :
  PrincipalClassification p = MSPPrincipal_ORGANIZATION_UNIT ∨
  (PrincipalClassification p = MSPPrincipal_ROLE ∧
   Unmarshal_MSPRole (elems (Principal p)) = Fine mspRole ∧
   Role mspRole = MSPRole_ADMIN) →
  SatisfiesPrincipal msp id (Some p) ≠ Ok () ∧
  SatisfiesPrincipal msp id (Some p) =
    match PrincipalClassification p with
    | MSPPrincipal_ROLE =>
        if String.eqb (MSPIdentifier mspRole) (name msp)
        then Panic (Explicit "Not yet implemented")
        else got ← GetMSPIdentifier id;
             Err (ErrDifferentMSP (MSPIdentifier mspRole) got)
    | _ => Panic (Explicit "Not yet implemented")
    end.
Proof.
  intros [Hou | (Hclass & Hrole & Hadmin)].
  - rewrite (SatisfiesPrincipal_ORGANIZATION_UNIT _ _ _ Hou), Hou. done.
  - rewrite (SatisfiesPrincipal_ROLE _ _ _ _ Hclass Hrole), Hclass, Hadmin.
    destruct (String.eqb _ _); [done|].
    split; [|done]. by destruct (GetMSPIdentifier id).
Qed.

(** What the name check of the ROLE case compares: the provider name of
    the principal with the name of the provider, not with the identity. *)
Lemma SatisfiesPrincipal_ROLE_different_MSP msp id p mspRole got :
  PrincipalClassification p = MSPPrincipal_ROLE →
  Unmarshal_MSPRole (elems (Principal p)) = Fine mspRole →
  GetMSPIdentifier id = Ok got →
  SatisfiesPrincipal msp id (Some p)
    = Err (ErrDifferentMSP (MSPIdentifier mspRole) got)
  ↔ MSPIdentifier mspRole ≠ name msp.
Proof.
  intros Hclass Hrole Hgot.
  rewrite (SatisfiesPrincipal_ROLE _ _ _ _ Hclass Hrole), Hgot.
  destruct (String.eqb_spec (MSPIdentifier mspRole) (name msp)) as [Heq|Hne].
  - split; [|done]. intros H. exfalso.
    destruct (Role mspRole); [|done..].
    destruct id as [|i|f]; [done| |done]. cbn in H.
    destruct (opts msp); [|done]. destruct (cert_IsCA _); [done|].
    by destruct (Certificate_Verify _ _ _).
  - done.
Qed.

End Principals.

(** C1, as stated, fails: on the provider org1, the ROLE principal that
    decodes to (org1, ADMIN) and an ORGANIZATION_UNIT principal make
    SatisfiesPrincipal panic, which is not a returned error. *)
Lemma SatisfiesPrincipal_unimplemented_panics :
  Unmarshal_MSPRole (World:=Toy.world)
      (elems (Principal (Toy.rolePrincipal "Aorg1")))
    = Fine {| MSPIdentifier := "org1"; Role := MSPRole_ADMIN |}
  ∧ SatisfiesPrincipal Toy.org1 Toy.bob (Some (Toy.rolePrincipal "Aorg1"))
    = Panic (Explicit "Not yet implemented")
  ∧ SatisfiesPrincipal Toy.org1 Toy.bob (Some (Toy.orgUnitPrincipal "ou"))
    = Panic (Explicit "Not yet implemented")
  ∧ ¬ returned_error
        (SatisfiesPrincipal Toy.org1 Toy.bob (Some (Toy.rolePrincipal "Aorg1"))).
Proof. repeat split; run. Qed.

Lemma SatisfiesPrincipal_unimplemented_witness :
  (PrincipalClassification (Toy.rolePrincipal "Aorg2")
     = MSPPrincipal_ORGANIZATION_UNIT ∨
   (PrincipalClassification (Toy.rolePrincipal "Aorg2") = MSPPrincipal_ROLE ∧
    Unmarshal_MSPRole (World:=Toy.world)
        (elems (Principal (Toy.rolePrincipal "Aorg2")))
      = Fine {| MSPIdentifier := "org2"; Role := MSPRole_ADMIN |} ∧
    Role {| MSPIdentifier := "org2"; Role := MSPRole_ADMIN |} = MSPRole_ADMIN))
  ∧ SatisfiesPrincipal Toy.org1 Toy.bob (Some (Toy.rolePrincipal "Aorg2"))
    = Err (ErrDifferentMSP "org2" "org1").
Proof.
  assert (H : PrincipalClassification (Toy.rolePrincipal "Aorg2")
     = MSPPrincipal_ORGANIZATION_UNIT ∨
   (PrincipalClassification (Toy.rolePrincipal "Aorg2") = MSPPrincipal_ROLE ∧
    Unmarshal_MSPRole (World:=Toy.world)
        (elems (Principal (Toy.rolePrincipal "Aorg2")))
      = Fine {| MSPIdentifier := "org2"; Role := MSPRole_ADMIN |} ∧
    Role {| MSPIdentifier := "org2"; Role := MSPRole_ADMIN |} = MSPRole_ADMIN)).
  { right. repeat split; reflexivity. }
  split; [exact H|].
  destruct (SatisfiesPrincipal_unimplemented Toy.org1 Toy.bob _ _ H) as [_ ->].
  reflexivity.
Defined.

(** C6 at a failing input. The comment in the ROLE case announces a
    check of the principal's provider name against "that of the identity",
    and the error message prints the identity's provider name; the test
    itself reads the name of the provider. The identity mallory claims
    org2 (the identifier was made by the provider org2) and holds a
    certificate of the root that org1 trusts too. Asked on org1 whether
    mallory is a MEMBER of org1, the code does not report a different MSP:
    it validates the identity. Asked whether mallory is a MEMBER of org2,
    the provider of the identifier, it reports a different MSP and prints
    org2 twice. *)
Theorem SatisfiesPrincipal_ROLE_checks_provider_not_identity :
  GetMSPIdentifier Toy.mallory = Ok "org2"
  ∧ name Toy.org1 = "org1"
  ∧ Unmarshal_MSPRole (World:=Toy.world)
      (elems (Principal (Toy.rolePrincipal "Morg1")))
    = Fine {| MSPIdentifier := "org1"; Role := MSPRole_MEMBER |}
  ∧ SatisfiesPrincipal Toy.org1 Toy.mallory (Some (Toy.rolePrincipal "Morg1"))
    = Ok ()
  ∧ Unmarshal_MSPRole (World:=Toy.world)
      (elems (Principal (Toy.rolePrincipal "Morg2")))
    = Fine {| MSPIdentifier := "org2"; Role := MSPRole_MEMBER |}
  ∧ SatisfiesPrincipal Toy.org1 Toy.mallory (Some (Toy.rolePrincipal "Morg2"))
    = Err (ErrDifferentMSP "org2" "org2").
Proof. repeat split; run. Qed.

(** ** Validation *)

Section Validation.
Context `{W : World}.

(** C4. On a provider whose verify options are set, an identity whose
    certificate is a CA certificate is refused with the CA error, whatever
    [Verify] would have answered for it: the theorem holds for every
    world, hence for every behaviour of [Certificate_Verify]. *)
Theorem Validate_rejects_CA (msp : bccspmsp) (id : identity) :
  opts msp ≠ None →
  cert_IsCA (cert id) = true →
  Validate msp (X509Identity id) = Err ErrCAUsedAsIdentity.
Proof.
  intros Hopts Hca. cbn. rewrite Hca. by destruct (opts msp).
Qed.

End Validation.

(** The root certificate of org1 would pass [Verify] against the roots of
    org1, and is refused all the same. *)
Lemma Validate_rejects_CA_witness :
  opts Toy.org1 ≠ None
  ∧ cert_IsCA (cert Toy.rootIdentity) = true
  ∧ Toy.verify (cert Toy.rootIdentity) [cert Toy.rootIdentity] [] = None
  ∧ Validate Toy.org1 (X509Identity Toy.rootIdentity) = Err ErrCAUsedAsIdentity.
Proof.
  assert (Hopts : opts Toy.org1 ≠ None) by run.
  assert (Hca : cert_IsCA (cert Toy.rootIdentity) = true) by reflexivity.
  split; [exact Hopts|]. split; [exact Hca|]. split; [reflexivity|].
  exact (Validate_rejects_CA Toy.org1 Toy.rootIdentity Hopts Hca).
Defined.

(** ** Deserialization *)

Section Deserialization.
Context `{W : World}.
Implicit Types (msp : bccspmsp) (b : bytes).

(** [DeserializeIdentity], case by case. Of the provider it reads the
    name and the crypto provider, and nothing that [Setup] builds. *)
Lemma DeserializeIdentity_cases msp b :
  DeserializeIdentity msp b =
    match Unmarshal_SerializedIdentity (elems b) with
    | Failed err => Err (ErrUnmarshalSerializedIdentity err)
    | Fine sId =>
        if String.eqb (sid_Mspid sId) (name msp) then
          match pem_Decode (elems (sid_IdBytes sId)) with
          | None => Err ErrPemDecode
          | Some bl =>
              match x509_ParseCertificate (Bytes bl) with
              | Failed err => Err (ErrParseCertificate err)
              | Fine c =>
                  match KeyImport_X509PublicKey (bccsp msp) c with
                  | Failed err => Err (ErrImportPublicKey err)
                  | Fine k =>
                      Ok (X509Identity
                            {| ident := {| Mspid := name msp; Id := "DEFAULT" |};
                               cert := c; pk := k |})
                  end
              end
          end
        else Err (ErrMspIdMismatch (name msp) (sid_Mspid sId))
    end.
Proof.
  unfold DeserializeIdentity, deserializeIdentityInternal.
  destruct (Unmarshal_SerializedIdentity _) as [sId|err]; cbn; [|done].
  destruct (String.eqb _ _); cbn; [|done].
  destruct (pem_Decode _) as [bl|]; [|done].
  destruct (x509_ParseCertificate _) as [c|err]; cbn; [|done].
  by destruct (KeyImport_X509PublicKey _ _).
Qed.

(** C5. A record that unmarshals and names another provider is refused
    with the MSP-id mismatch, whatever its certificate bytes are: no
    function that decodes or parses them occurs in the result. *)
Theorem DeserializeIdentity_MSP_mismatch msp b (sId : SerializedIdentity) :
  Unmarshal_SerializedIdentity (elems b) = Fine sId →
  sid_Mspid sId ≠ name msp →
  DeserializeIdentity msp b = Err (ErrMspIdMismatch (name msp) (sid_Mspid sId)).
Proof.
  intros Hwire Hne. rewrite DeserializeIdentity_cases, Hwire.
  by destruct (String.eqb_spec (sid_Mspid sId) (name msp)).
Qed.

(** C10. On a provider whose verify options are absent ([Setup] never
    ran, or failed before it built them) [DeserializeIdentity] never
    answers with the invalid-instance error of [Validate]: it unmarshals
    the record, compares its provider name with the current [name], and on
    equality decodes and parses the certificate and returns the identity.
    [Validate] on the same provider refuses every identity as coming
    from an invalid instance. *)
Theorem DeserializeIdentity_without_Setup msp b :
  opts msp = None →
  (∀ i, Validate msp (X509Identity i) = Err ErrInvalidMspInstance)
  ∧ DeserializeIdentity msp b ≠ Err ErrInvalidMspInstance
  ∧ DeserializeIdentity msp b =
      match Unmarshal_SerializedIdentity (elems b) with
      | Failed err => Err (ErrUnmarshalSerializedIdentity err)
      | Fine sId =>
          if String.eqb (sid_Mspid sId) (name msp) then
            match pem_Decode (elems (sid_IdBytes sId)) with
            | None => Err ErrPemDecode
            | Some bl =>
                match x509_ParseCertificate (Bytes bl) with
                | Failed err => Err (ErrParseCertificate err)
                | Fine c =>
                    match KeyImport_X509PublicKey (bccsp msp) c with
                    | Failed err => Err (ErrImportPublicKey err)
                    | Fine k =>
                        Ok (X509Identity
                              {| ident := {| Mspid := name msp; Id := "DEFAULT" |};
                                 cert := c; pk := k |})
                    end
                end
            end
          else Err (ErrMspIdMismatch (name msp) (sid_Mspid sId))
      end.
Proof.
  intros Hopts. split; [intros i; cbn; by rewrite Hopts|].
  split; [|apply DeserializeIdentity_cases].
  rewrite DeserializeIdentity_cases.
  repeat case_match; done.
Qed.

(** The provider that [NewBccspMsp] returns: no name, no options. *)
Lemma NewBccspMsp_fresh (csp : BCCSP) msp :
  NewBccspMsp (Fine csp) = Fine msp → name msp = "" ∧ opts msp = None.
Proof. intros [= <-]. done. Qed.

(** Where the local id of an identity comes from. *)
Lemma getIdentityFromConf_Ok msp b (id : Identity) :
  getIdentityFromConf msp b = Ok id →
  ∃ i, id = X509Identity i ∧ ident i = {| Mspid := name msp; Id := "IDENTITY" |}
       ∧ KeyImport_X509PublicKey (bccsp msp) (cert i) = Fine (pk i).
Proof.
  unfold getIdentityFromConf. destruct b as [idBytes|]; [|done].
  destruct (pem_Decode _) as [bl|]; [|done].
  destruct (x509_ParseCertificate _) as [c|err]; cbn; [|done].
  destruct (KeyImport_X509PublicKey _ _) as [k|err] eqn:Hk; cbn; [|done].
  intros [= <-]. eexists. split; [reflexivity|]. done.
Qed.

Lemma DeserializeIdentity_Ok msp b (id : Identity) :
  DeserializeIdentity msp b = Ok id →
  ∃ i, id = X509Identity i ∧ ident i = {| Mspid := name msp; Id := "DEFAULT" |}
       ∧ KeyImport_X509PublicKey (bccsp msp) (cert i) = Fine (pk i).
Proof.
  rewrite DeserializeIdentity_cases. repeat case_match; try done.
  intros [= <-]. eexists. split; [reflexivity|]. done.
Qed.

(** C7, as the code has it. Serializing an identity of this provider and
    deserializing the bytes gives an identity with the same certificate,
    the same public key and the same provider name, and with the local id
    "DEFAULT": the identifier is the one of [i] exactly when the local id
    of [i] is "DEFAULT" too. The hypotheses say that [i] is an identity of
    this provider (its name, a certificate that is the parse of its raw
    bytes, the key imported from it) and that PEM and the wire format
    decode what they encoded. *)
Theorem DeserializeIdentity_serialize msp (i : identity)
    (pemBytes wire : list byte) :
  Mspid (ident i) = name msp →
  x509_ParseCertificate (cert_Raw (cert i)) = Fine (cert i) →
  KeyImport_X509PublicKey (bccsp msp) (cert i) = Fine (pk i) →
  pem_EncodeToMemory {| Bytes := cert_Raw (cert i) |} = Some pemBytes →
  pem_Decode pemBytes = Some {| Bytes := cert_Raw (cert i) |} →
  serialize i = Fine wire →
  Unmarshal_SerializedIdentity wire
    = Fine {| sid_Mspid := Mspid (ident i); sid_IdBytes := Some pemBytes |} →
  DeserializeIdentity msp (Some wire)
    = Ok (X509Identity {| ident := {| Mspid := Mspid (ident i); Id := "DEFAULT" |};
                          cert := cert i; pk := pk i |})
  ∧ ({| Mspid := Mspid (ident i); Id := "DEFAULT" |} = ident i
     ↔ Id (ident i) = "DEFAULT").
Proof.
  intros Hname Hparse Hkey Hpem Hdecode Hser Hwire. split.
  - rewrite DeserializeIdentity_cases. cbn. rewrite Hwire. cbn.
    rewrite Hname, String.eqb_refl, Hdecode. cbn. by rewrite Hparse, Hkey.
  - destruct (ident i) as [m l]. cbn. split; [by intros [= ->]|by intros ->].
Qed.

End Deserialization.

Lemma DeserializeIdentity_MSP_mismatch_witness :
  Unmarshal_SerializedIdentity (World:=Toy.world)
      (elems (Toy.wire "org2" "-0Erb"))
    = Fine {| sid_Mspid := "org2"; sid_IdBytes := Some (Toy.text "-0Erb") |}
  ∧ "org2" ≠ name Toy.org1
  ∧ DeserializeIdentity Toy.org1 (Toy.wire "org1" "-0Erb")
    = Ok (X509Identity
            {| ident := {| Mspid := "org1"; Id := "DEFAULT" |};
               cert := ({| Toy.raw := Toy.text "0Erb"; Toy.isCA := false;
                           Toy.issuer := "r"; Toy.key := Toy.text "b" |}
                        : @Certificate Toy.world);
               pk := ({| Toy.public := Toy.text "b"; Toy.private := false |}
                      : @Key Toy.world) |})
  ∧ DeserializeIdentity Toy.org1 (Toy.wire "org2" "-0Erb")
    = Err (ErrMspIdMismatch "org1" "org2").
Proof.
  assert (Hne : "org2" ≠ name Toy.org1) by run.
  split; [reflexivity|]. split; [exact Hne|]. split; [reflexivity|].
  exact (DeserializeIdentity_MSP_mismatch Toy.org1 (Toy.wire "org2" "-0Erb")
           {| sid_Mspid := "org2"; sid_IdBytes := Some (Toy.text "-0Erb") |}
           eq_refl Hne).
Defined.

(** On the provider that was never set up, the record with the empty
    provider name and a certificate gives an identity. *)
Lemma DeserializeIdentity_without_Setup_witness :
  NewBccspMsp (Fine (Toy.csp : @BCCSP Toy.world)) = Fine Toy.fresh
  ∧ opts Toy.fresh = None
  ∧ DeserializeIdentity Toy.fresh (Toy.wire "" "-0Erb")
    = Ok (X509Identity
            {| ident := {| Mspid := ""; Id := "DEFAULT" |};
               cert := ({| Toy.raw := Toy.text "0Erb"; Toy.isCA := false;
                           Toy.issuer := "r"; Toy.key := Toy.text "b" |}
                        : @Certificate Toy.world);
               pk := ({| Toy.public := Toy.text "b"; Toy.private := false |}
                      : @Key Toy.world) |}).
Proof.
  split; [reflexivity|]. split; [reflexivity|].
  destruct (DeserializeIdentity_without_Setup Toy.fresh (Toy.wire "" "-0Erb")
              eq_refl) as (_ & _ & ->).
  reflexivity.
Defined.

(** C7, as stated, fails for the admin that [Setup] ingested into org1:
    the identity alice is valid for org1, and the identity read back from
    its serialized form has the same certificate but another identifier. *)
Lemma DeserializeIdentity_serialize_changes_identifier :
  admins Toy.org1 = [X509Identity Toy.alice]
  ∧ Validate Toy.org1 (X509Identity Toy.alice) = Ok ()
  ∧ Serialize (X509Identity Toy.alice) = Ok (Fine (elems (Toy.wire "org1" "-0Era")))
  ∧ DeserializeIdentity Toy.org1 (Toy.wire "org1" "-0Era")
    = Ok (X509Identity {| ident := {| Mspid := "org1"; Id := "DEFAULT" |};
                          cert := cert Toy.alice; pk := pk Toy.alice |})
  ∧ {| Mspid := "org1"; Id := "DEFAULT" |} ≠ ident Toy.alice.
Proof. repeat split; run. Qed.

Lemma DeserializeIdentity_serialize_witness :
  Mspid (ident Toy.alice) = name Toy.org1
  ∧ x509_ParseCertificate (World:=Toy.world) (cert_Raw (cert Toy.alice))
    = Fine (cert Toy.alice)
  ∧ KeyImport_X509PublicKey (bccsp Toy.org1) (cert Toy.alice) = Fine (pk Toy.alice)
  ∧ pem_EncodeToMemory (World:=Toy.world) {| Bytes := cert_Raw (cert Toy.alice) |}
    = Some (Toy.text "-0Era")
  ∧ pem_Decode (World:=Toy.world) (Toy.text "-0Era")
    = Some {| Bytes := cert_Raw (cert Toy.alice) |}
  ∧ serialize Toy.alice = Fine (elems (Toy.wire "org1" "-0Era"))
  ∧ Unmarshal_SerializedIdentity (World:=Toy.world) (elems (Toy.wire "org1" "-0Era"))
    = Fine {| sid_Mspid := Mspid (ident Toy.alice);
              sid_IdBytes := Some (Toy.text "-0Era") |}
  ∧ DeserializeIdentity Toy.org1 (Some (elems (Toy.wire "org1" "-0Era")))
    = Ok (X509Identity {| ident := {| Mspid := "org1"; Id := "DEFAULT" |};
                          cert := cert Toy.alice; pk := pk Toy.alice |}).
Proof.
  repeat (split; [reflexivity|]).
  refine (proj1 (DeserializeIdentity_serialize Toy.org1 Toy.alice
                   (Toy.text "-0Era") (elems (Toy.wire "org1" "-0Era"))
                   _ _ _ _ _ _ _)); reflexivity.
Defined.

(** ** Setup *)

Section SetupFacts.
Context `{W : World}.
Implicit Types (msp : bccspmsp) (f : certField) (l : list Identity).

Lemma bind_run {A B} (m : M A) (k : A → M B) msp :
  (m ≫= k) msp =
    match m msp with
    | (Ok a, msp') => k a msp'
    | (Err e, msp') => (Err e, msp')
    | (Panic p, msp') => (Panic p, msp')
    end.
Proof. reflexivity. Qed.

Lemma run_eq {A} (m : M A) msp (r : result A) :
  (m msp).1 = r → m msp = (r, (m msp).2).
Proof. intros <-. by destruct (m msp). Qed.

(** The three slice fields behave as fields. *)
Lemma get_set f l msp : get f (set f l msp) = l.
Proof. by destruct f. Qed.

Lemma set_set f l l' msp : set f l (set f l' msp) = set f l msp.
Proof. by destruct f. Qed.

Lemma set_get f msp : set f (get f msp) msp = msp.
Proof. by destruct f, msp. Qed.

Lemma set_name_bccsp f l msp :
  name (set f l msp) = name msp ∧ bccsp (set f l msp) = bccsp msp.
Proof. by destruct f. Qed.

(** The ingest routine reads the name and the crypto provider only. *)
Lemma getIdentityFromConf_reads msp msp' (b : bytes) :
  name msp' = name msp → bccsp msp' = bccsp msp →
  getIdentityFromConf msp' b = getIdentityFromConf msp b.
Proof. intros Hn Hb. unfold getIdentityFromConf. by rewrite Hn, Hb. Qed.

(** It never panics, and its errors are errors of [Setup]. *)
Lemma getIdentityFromConf_outcome msp (b : bytes) :
  (∃ i, getIdentityFromConf msp b = Ok (X509Identity i))
  ∨ (∃ e, getIdentityFromConf msp b = Err e ∧ SetupError e = true).
Proof.
  unfold getIdentityFromConf. destruct b as [idBytes|]; [|right; eauto].
  destruct (pem_Decode _) as [bl|]; [|right; eauto].
  destruct (x509_ParseCertificate _) as [c|err]; cbn; [|right; eauto].
  destruct (KeyImport_X509PublicKey _ _) as [k|err]; cbn; [|right; eauto].
  left. eauto.
Qed.

(** The loop writes its own field and keeps the length of the slice; in
    a slice that is long enough for the blobs it stores within bounds, and
    ends normally or with the error of one of the blobs. *)
Lemma fill_run f (blobs : list bytes) : ∀ i msp,
  (i + length blobs ≤ length (get f msp))%nat →
  ∃ r l, fill f i blobs msp = (r, set f l msp)
         ∧ length l = length (get f msp)
         ∧ ok_or_SetupError r.
Proof.
  induction blobs as [|c blobs IH]; intros i msp Hlen; cbn [fill].
  - exists (Ok ()), (get f msp). rewrite set_get.
    repeat split. by left.
  - cbn [length] in Hlen. rewrite bind_run. unfold call at 1.
    destruct (getIdentityFromConf_outcome msp c) as [(id & ->)|(e & -> & He)].
    + rewrite bind_run. unfold store at 1.
      rewrite decide_True by lia.
      destruct (IH (S i) (set f (<[i:=X509Identity id]> (get f msp)) msp))
        as (r & l & -> & Hl & Hr).
      { rewrite get_set, length_insert. lia. }
      exists r, l. rewrite set_set. split; [done|].
      by rewrite Hl, get_set, length_insert.
    + exists (Err e), (get f msp). rewrite set_get.
      repeat split. right. eauto.
Qed.

Lemma length_make n : length (make n) = n.
Proof. apply length_replicate. Qed.

Lemma setupAdmins_run (conf : FabricMSPConfig) msp :
  ∃ r l, setupAdmins conf msp = (r, set_admins l msp) ∧ ok_or_SetupError r.
Proof.
  unfold setupAdmins. destruct (Admins conf) as [confAdmins|].
  - rewrite bind_run. unfold assign at 1.
    destruct (fill_run fieldAdmins confAdmins 0
                (set_admins (make (length confAdmins)) msp))
      as (r & l & -> & _ & Hr).
    { cbn. by rewrite length_make. }
    by exists r, l.
  - exists (Ok ()), (admins msp). split; [by destruct msp|by left].
Qed.

Lemma setupRootCerts_run (conf : FabricMSPConfig) msp :
  (len (RootCerts conf) = 0
   ∧ setupRootCerts conf msp = (Err ErrNoRootCerts, msp))
  ∨ (len (RootCerts conf) ≠ 0
     ∧ ∃ r l, setupRootCerts conf msp = (r, set_rootCerts l msp)
              ∧ length l = len (RootCerts conf)
              ∧ ok_or_SetupError r).
Proof.
  unfold setupRootCerts. case_bool_decide as Hlen; [by left|right].
  split; [done|]. rewrite bind_run. unfold assign at 1.
  destruct (fill_run fieldRootCerts (elems (RootCerts conf)) 0
              (set_rootCerts (make (len (RootCerts conf))) msp))
    as (r & l & -> & Hl & Hr).
  { cbn. by rewrite length_make. }
  exists r, l. split; [done|]. split; [|done].
  rewrite Hl. cbn. by rewrite length_make.
Qed.

Lemma setupIntermediateCerts_run (conf : FabricMSPConfig) msp :
  ∃ r l, setupIntermediateCerts conf msp = (r, set_intermediateCerts l msp)
         ∧ ok_or_SetupError r.
Proof.
  unfold setupIntermediateCerts.
  destruct (IntermediateCerts conf) as [confIntermediateCerts|].
  - rewrite bind_run. unfold assign at 1.
    destruct (fill_run fieldIntermediateCerts confIntermediateCerts 0
                (set_intermediateCerts (make (length confIntermediateCerts)) msp))
      as (r & l & -> & _ & Hr).
    { cbn. by rewrite length_make. }
    by exists r, l.
  - exists (Ok ()), (make 0). split; [done|by left].
Qed.

(** The signer is assigned when, and only when, the signing identity
    could be built. *)
Lemma setupSigner_run (conf : FabricMSPConfig) msp :
  setupSigner conf msp =
    match SigningIdentity conf with
    | None => (Ok (), msp)
    | Some sidInfo =>
        match getSigningIdentityFromConf msp (Some sidInfo) with
        | Ok sid => (Ok (), set_signer (Some sid) msp)
        | Err e => (Err e, msp)
        | Panic p => (Panic p, msp)
        end
    end.
Proof.
  unfold setupSigner. destruct (SigningIdentity conf) as [sidInfo|]; [|done].
  rewrite bind_run. unfold call.
  by destruct (getSigningIdentityFromConf msp (Some sidInfo)).
Qed.

(** Building the verify options writes [opts] only and returns no error;
    when it ends normally the options are there. *)
Lemma addCerts_run (add : Certificate → M unit) (ids : list Identity) :
  (∀ c msp, ∃ r o, add c msp = (r, set_opts o msp)
                   ∧ (∀ e, r ≠ Err e) ∧ (r = Ok () → is_Some o)) →
  ∀ msp, ∃ r o, addCerts add ids msp = (r, set_opts o msp)
                ∧ (∀ e, r ≠ Err e)
                ∧ (is_Some (opts msp) → r = Ok () → is_Some o).
Proof.
  intros Hadd. induction ids as [|v ids IH]; intros msp; cbn [addCerts].
  - exists (Ok ()), (opts msp). split; [by destruct msp|done].
  - rewrite bind_run. unfold call at 1.
    destruct v as [|i|g]; cbn [as_identity];
      try (exists (Panic FailedTypeAssertion), (opts msp);
           split; [by destruct msp|done]).
    rewrite bind_run.
    destruct (Hadd (cert i) msp) as (r & o & -> & Hr & Ho).
    destruct r as [[]|e|p].
    + destruct (IH (set_opts o msp)) as (r' & o' & -> & Hr' & Ho').
      exists r', o'. repeat split; [done|]. intros _. apply Ho'. by apply Ho.
    + by destruct (Hr e).
    + by exists (Panic p), o.
Qed.

Lemma addRoot_run (c : Certificate) msp :
  ∃ r o, addRoot c msp = (r, set_opts o msp)
         ∧ (∀ e, r ≠ Err e) ∧ (r = Ok () → is_Some o).
Proof.
  unfold addRoot. rewrite bind_run. unfold call, assign.
  destruct (opts msp) as [o|] eqn:Ho; cbn [deref].
  - by eexists (Ok ()), _.
  - exists (Panic NilDereference), None. split; [|done].
    destruct msp; cbn in *; by subst.
Qed.

Lemma addIntermediate_run (c : Certificate) msp :
  ∃ r o, addIntermediate c msp = (r, set_opts o msp)
         ∧ (∀ e, r ≠ Err e) ∧ (r = Ok () → is_Some o).
Proof.
  unfold addIntermediate. rewrite bind_run. unfold call, assign.
  destruct (opts msp) as [o|] eqn:Ho; cbn [deref].
  - by eexists (Ok ()), _.
  - exists (Panic NilDereference), None. split; [|done].
    destruct msp; cbn in *; by subst.
Qed.

Lemma setupOpts_run msp :
  ∃ r o, setupOpts msp = (r, set_opts o msp)
         ∧ (∀ e, r ≠ Err e) ∧ (r = Ok () → is_Some o).
Proof.
  unfold setupOpts. rewrite bind_run. unfold assign at 1.
  rewrite bind_run. unfold call at 1. rewrite bind_run.
  set (msp0 := set_opts _ msp).
  destruct (addCerts_run addRoot (rootCerts msp0) addRoot_run msp0)
    as (r & o & -> & Hr & Ho).
  destruct r as [[]|e|p].
  - rewrite bind_run. unfold call at 1.
    destruct (addCerts_run addIntermediate
                (intermediateCerts (set_opts o msp0)) addIntermediate_run
                (set_opts o msp0)) as (r' & o' & -> & Hr' & Ho').
    exists r', o'. repeat split; [done|]. apply Ho'. by apply Ho.
  - by destruct (Hr e).
  - by exists (Panic p), o.
Qed.

Lemma getSigningIdentityFromConf_reads msp msp' sidInfo :
  name msp' = name msp → bccsp msp' = bccsp msp →
  getSigningIdentityFromConf msp' sidInfo = getSigningIdentityFromConf msp sidInfo.
Proof.
  intros Hn Hb. unfold getSigningIdentityFromConf.
  destruct sidInfo as [sidInfo|]; [|done].
  by rewrite (getIdentityFromConf_reads msp msp' _ Hn Hb), Hn, Hb.
Qed.

(** One run of [Setup] on a configuration that unmarshals, as the values
    that the six assigned fields end with. A field that the run did not
    reach ends with the value it had. *)
Lemma Setup_run (conf1 : MSPConfig) (conf : FabricMSPConfig) msp :
  Unmarshal_FabricMSPConfig (elems (Config conf1)) = Fine conf →
  ∃ r la lr li sg o,
    Setup (Some conf1) msp
      = (r, set_opts o (set_signer sg (set_intermediateCerts li
              (set_rootCerts lr (set_admins la (set_name (Name conf) msp))))))
    ∧ match r with
      | Ok _ =>
          len (RootCerts conf) ≠ 0 ∧ length lr = len (RootCerts conf)
          ∧ is_Some o
          ∧ match SigningIdentity conf with
            | None => sg = signer msp
            | Some sidInfo =>
                ∃ sid, getSigningIdentityFromConf
                         (set_name (Name conf) msp) (Some sidInfo) = Ok sid
                       ∧ sg = Some sid
            end
      | Err e =>
          SetupError e = true ∧ sg = signer msp ∧ o = opts msp
          ∧ (len (RootCerts conf) = 0 →
             lr = rootCerts msp ∧ li = intermediateCerts msp)
      | Panic _ => len (RootCerts conf) ≠ 0
      end.
Proof.
  intros Hconf. unfold Setup.
  rewrite bind_run. unfold call at 1. rewrite Hconf. cbn [check].
  rewrite bind_run. unfold assign at 1. rewrite bind_run.
  set (msp0 := set_name (Name conf) msp).
  destruct (setupAdmins_run conf msp0) as (r & la & -> & [->|(e & -> & He)]);
    [|exists (Err e), la, (rootCerts msp), (intermediateCerts msp),
              (signer msp), (opts msp);
      split; [by destruct msp|done]].
  rewrite bind_run.
  destruct (setupRootCerts_run conf (set_admins la msp0))
    as [(Hlen & ->)|(Hlen & r & lr & -> & Hlr & [->|(e & -> & He)])];
    [exists (Err ErrNoRootCerts), la, (rootCerts msp), (intermediateCerts msp),
            (signer msp), (opts msp);
      split; [by destruct msp|done]
    |
    |exists (Err e), la, lr, (intermediateCerts msp), (signer msp), (opts msp);
      split; [by destruct msp|done]].
  rewrite bind_run.
  destruct (setupIntermediateCerts_run conf (set_rootCerts lr (set_admins la msp0)))
    as (r & li & -> & [->|(e & -> & He)]);
    [|exists (Err e), la, lr, li, (signer msp), (opts msp);
      split; [by destruct msp|done]].
  rewrite bind_run, setupSigner_run.
  set (msp3 := set_intermediateCerts li _).
  destruct (SigningIdentity conf) as [sidInfo|] eqn:Hsid.
  - rewrite (getSigningIdentityFromConf_reads msp0 msp3) by done.
    destruct (getSigningIdentityFromConf msp0 (Some sidInfo))
      as [sid|e|p] eqn:Hget.
    + destruct (setupOpts_run (set_signer (Some sid) msp3))
        as (r & o & -> & Hr & Ho).
      exists r, la, lr, li, (Some sid), o. split; [done|].
      destruct r as [[]|e|p]; [eauto 10|by destruct (Hr e)|done].
    + exists (Err e), la, lr, li, (signer msp), (opts msp).
      split; [by destruct msp|]. split; [|done].
      revert Hget. unfold getSigningIdentityFromConf.
      destruct (getIdentityFromConf_outcome msp0 (PublicSigner sidInfo))
        as [(i & ->)|(e' & -> & He')]; cbn; [|by intros [= <-]].
      destruct (PrivateSigner sidInfo) as [ki|]; cbn; [|done].
      destruct (pem_Decode _) as [bl|]; cbn; [|done].
      destruct (KeyImport_ECDSAPrivateKey _ _) as [k|err]; cbn;
        [|by intros [= <-]].
      destruct (CryptoSigner_Init _ _) as [sg|err]; cbn; [done|by intros [= <-]].
    + exists (Panic p), la, lr, li, (signer msp), (opts msp).
      split; [by destruct msp|done].
  - destruct (setupOpts_run msp3) as (r & o & -> & Hr & Ho).
    exists r, la, lr, li, (signer msp), o. split; [by destruct msp|].
    destruct r as [[]|e|p]; [auto|by destruct (Hr e)|done].
Qed.

(** A run that succeeds took the name of the configuration and built the
    verify options: the provider passes the test at the head of
    [Validate]. *)
Lemma Setup_Ok (conf1 : option MSPConfig) msp msp' :
  Setup conf1 msp = (Ok (), msp') →
  opts msp' ≠ None
  ∧ ∃ c conf, conf1 = Some c
      ∧ Unmarshal_FabricMSPConfig (elems (Config c)) = Fine conf
      ∧ name msp' = Name conf
      ∧ length (rootCerts msp') = len (RootCerts conf).
Proof.
  intros Hrun. destruct conf1 as [c|]; [|done].
  destruct (Unmarshal_FabricMSPConfig (elems (Config c))) as [conf|err] eqn:Hconf.
  - destruct (Setup_run c conf msp Hconf)
      as (r & la & lr & li & sg & o & Hrun' & Hr).
    rewrite Hrun in Hrun'. injection Hrun' as <- ->.
    destruct Hr as (_ & Hlen & [o' ->] & _). split; [done|].
    by exists c, conf.
  - unfold Setup in Hrun. rewrite bind_run in Hrun. unfold call in Hrun.
    by rewrite Hconf in Hrun.
Qed.

(** With no root and no admin certificate the run stops at the root
    check, after it has assigned the name (and the empty admin slice). *)
Lemma Setup_no_roots_no_admins (conf1 : MSPConfig) (conf : FabricMSPConfig) msp :
  Unmarshal_FabricMSPConfig (elems (Config conf1)) = Fine conf →
  len (RootCerts conf) = 0 →
  elems (Admins conf) = [] →
  Setup (Some conf1) msp
    = (Err ErrNoRootCerts,
       set_admins (match Admins conf with Some _ => [] | None => admins msp end)
         (set_name (Name conf) msp)).
Proof.
  intros Hconf Hroots Hadmins. unfold Setup.
  rewrite bind_run. unfold call at 1. rewrite Hconf. cbn [check].
  rewrite bind_run. unfold assign at 1. rewrite bind_run.
  unfold setupAdmins.
  destruct (Admins conf) as [confAdmins|]; cbn in Hadmins; subst.
  - rewrite bind_run. unfold assign at 1. cbn [fill].
    unfold mret, M_ret. rewrite bind_run. unfold setupRootCerts.
    by rewrite bool_decide_eq_true_2.
  - unfold mret, M_ret. rewrite bind_run. unfold setupRootCerts.
    rewrite bool_decide_eq_true_2 by done. unfold raise. by destruct msp.
Qed.

Lemma getSigningIdentityFromConf_Ok msp (sidInfo : SigningIdentityInfo)
    (sid : signingidentity) :
  getSigningIdentityFromConf msp (Some sidInfo) = Ok sid →
  ∃ certPem bl c k ki pemKey key sg,
    PublicSigner sidInfo = Some certPem
    ∧ pem_Decode certPem = Some bl
    ∧ x509_ParseCertificate (Bytes bl) = Fine c
    ∧ KeyImport_X509PublicKey (bccsp msp) c = Fine k
    ∧ PrivateSigner sidInfo = Some ki
    ∧ pem_Decode (elems (KeyMaterial ki)) = Some pemKey
    ∧ KeyImport_ECDSAPrivateKey (bccsp msp) (Bytes pemKey) = Fine key
    ∧ CryptoSigner_Init (bccsp msp) key = Fine sg
    ∧ sid = newSigningIdentity {| Mspid := name msp; Id := "DEFAULT" |} c k sg.
Proof.
  unfold getSigningIdentityFromConf, getIdentityFromConf.
  destruct (PublicSigner sidInfo) as [certPem|]; [|done].
  destruct (pem_Decode certPem) as [bl|] eqn:Hbl; [|done].
  destruct (x509_ParseCertificate _) as [c|err] eqn:Hc; cbn; [|done].
  destruct (KeyImport_X509PublicKey _ _) as [k|err] eqn:Hk; cbn; [|done].
  destruct (PrivateSigner sidInfo) as [ki|]; cbn; [|done].
  destruct (pem_Decode (elems _)) as [pemKey|] eqn:HpemKey; cbn; [|done].
  destruct (KeyImport_ECDSAPrivateKey _ _) as [key|err] eqn:Hkey; cbn; [|done].
  destruct (CryptoSigner_Init _ _) as [sg|err] eqn:Hsg; cbn; [|done].
  intros [= <-]. by exists certPem, bl, c, k, ki, pemKey, key, sg.
Qed.

(** The private key is decoded without the nil check that the ingest of
    the certificate has: an absent key record or key material that is not
    PEM ends in a nil dereference, once the certificate was ingested. *)
Lemma getSigningIdentityFromConf_nil_dereference msp
    (sidInfo : SigningIdentityInfo) (id : Identity) :
  getIdentityFromConf msp (PublicSigner sidInfo) = Ok id →
  match PrivateSigner sidInfo with
  | None => True
  | Some ki => pem_Decode (elems (KeyMaterial ki)) = None
  end →
  getSigningIdentityFromConf msp (Some sidInfo) = Panic NilDereference.
Proof.
  intros Hid Hkey. unfold getSigningIdentityFromConf. rewrite Hid. cbn.
  destruct (PrivateSigner sidInfo) as [ki|]; cbn; [|done].
  by rewrite Hkey.
Qed.

Lemma Validate_without_opts msp (id : Identity) :
  opts msp = None → Validate msp id ≠ Ok ().
Proof. intros Hopts. destruct id as [|i|g]; cbn; by rewrite ?Hopts. Qed.

(** C8, as the code has it. When [Setup] returns an error, the signer
    and the verify options are the ones from before the call. For a nil or
    unparseable configuration the whole provider is unchanged; otherwise
    the name has been overwritten with the name of the configuration (and
    the admin, root and intermediate slices hold what the run assigned
    before it stopped). *)
Theorem Setup_error_state msp (conf1 : option MSPConfig) (e : error) msp' :
  Setup conf1 msp = (Err e, msp') →
  signer msp' = signer msp
  ∧ opts msp' = opts msp
  ∧ match conf1 with
    | None => msp' = msp
    | Some c =>
        match Unmarshal_FabricMSPConfig (elems (Config c)) with
        | Failed _ => msp' = msp
        | Fine conf => name msp' = Name conf
        end
    end.
Proof.
  intros Hrun. destruct conf1 as [c|]; [|by injection Hrun as <- <-].
  destruct (Unmarshal_FabricMSPConfig (elems (Config c))) as [conf|err] eqn:Hconf.
  - destruct (Setup_run c conf msp Hconf)
      as (r & la & lr & li & sg & o & Hrun' & Hr).
    rewrite Hrun in Hrun'. injection Hrun' as <- ->.
    by destruct Hr as (_ & -> & -> & _).
  - unfold Setup in Hrun. rewrite bind_run in Hrun. unfold call in Hrun.
    rewrite Hconf in Hrun. cbn in Hrun. by injection Hrun as <- <-.
Qed.

(** C2, as the code has it. When a configuration with a signing-identity
    record makes [Setup] succeed, the certificate of the record was
    decoded, parsed and its public key imported, the private key was
    decoded and imported, a signer was bound to it, and the provider holds
    the signing identity made of exactly these: certificate, imported
    public key and signer. Nothing relates the key of the signer to the key
    of the certificate. *)
Theorem Setup_signing_identity msp (conf1 : MSPConfig) (conf : FabricMSPConfig)
    (sidInfo : SigningIdentityInfo) msp' :
  Unmarshal_FabricMSPConfig (elems (Config conf1)) = Fine conf →
  SigningIdentity conf = Some sidInfo →
  Setup (Some conf1) msp = (Ok (), msp') →
  ∃ certPem bl c k ki pemKey key sg,
    PublicSigner sidInfo = Some certPem
    ∧ pem_Decode certPem = Some bl
    ∧ x509_ParseCertificate (Bytes bl) = Fine c
    ∧ KeyImport_X509PublicKey (bccsp msp) c = Fine k
    ∧ PrivateSigner sidInfo = Some ki
    ∧ pem_Decode (elems (KeyMaterial ki)) = Some pemKey
    ∧ KeyImport_ECDSAPrivateKey (bccsp msp) (Bytes pemKey) = Fine key
    ∧ CryptoSigner_Init (bccsp msp) key = Fine sg
    ∧ signer msp'
      = Some (newSigningIdentity {| Mspid := Name conf; Id := "DEFAULT" |} c k sg).
Proof.
  intros Hconf Hsid Hrun.
  destruct (Setup_run conf1 conf msp Hconf)
    as (r & la & lr & li & sg & o & Hrun' & Hr).
  rewrite Hrun in Hrun'. injection Hrun' as <- ->.
  destruct Hr as (_ & _ & _ & Hsg). rewrite Hsid in Hsg.
  destruct Hsg as (sid & Hget & ->).
  apply getSigningIdentityFromConf_Ok in Hget
    as (certPem & bl & c & k & ki & pemKey & key & sg & ? & ? & ? & ? & ? & ?
        & ? & ? & ->).
  by exists certPem, bl, c, k, ki, pemKey, key, sg.
Qed.

End SetupFacts.

(** C8, as stated, fails: a configuration for org2 whose second root is
    not PEM makes [Setup] return an error on the provider org1, which is
    then named org2 and has lost its root. *)
Lemma Setup_error_changes_provider :
  (Setup (Toy.conf ["Norg2"; "R-0Crr"; "Rxx"]) Toy.org1).1 = Err ErrConfPemDecode
  ∧ name Toy.org1 = "org1"
  ∧ name (Setup (Toy.conf ["Norg2"; "R-0Crr"; "Rxx"]) Toy.org1).2 = "org2"
  ∧ rootCerts (Setup (Toy.conf ["Norg2"; "R-0Crr"; "Rxx"]) Toy.org1).2
    = [X509Identity {| ident := {| Mspid := "org2"; Id := "IDENTITY" |};
                       cert := cert Toy.rootIdentity;
                       pk := pk Toy.rootIdentity |};
       NilIdentity]
  ∧ (Setup (Toy.conf ["Norg2"; "R-0Crr"; "Rxx"]) Toy.org1).2 ≠ Toy.org1.
Proof. repeat split; run. Qed.

Lemma Setup_error_state_witness :
  Setup (Toy.conf ["Norg2"; "R-0Crr"; "Rxx"]) Toy.org1
    = (Err ErrConfPemDecode,
       (Setup (Toy.conf ["Norg2"; "R-0Crr"; "Rxx"]) Toy.org1).2)
  ∧ signer (Setup (Toy.conf ["Norg2"; "R-0Crr"; "Rxx"]) Toy.org1).2
    = signer Toy.org1
  ∧ opts (Setup (Toy.conf ["Norg2"; "R-0Crr"; "Rxx"]) Toy.org1).2
    = opts Toy.org1
  ∧ name (Setup (Toy.conf ["Norg2"; "R-0Crr"; "Rxx"]) Toy.org1).2 = "org2".
Proof.
  assert (Hrun : Setup (Toy.conf ["Norg2"; "R-0Crr"; "Rxx"]) Toy.org1
    = (Err ErrConfPemDecode,
       (Setup (Toy.conf ["Norg2"; "R-0Crr"; "Rxx"]) Toy.org1).2))
    by (by apply run_eq).
  split; [exact Hrun|].
  destruct (Setup_error_state _ _ _ _ Hrun) as (Hsigner & Hopts & Hname).
  split; [exact Hsigner|]. split; [exact Hopts|]. exact Hname.
Defined.

(** C2, as stated, fails: the certificate of the signing identity carries
    the key [a], the private key is [b], [Setup] succeeds and keeps a
    signing identity whose signer signs for [b]. *)
Lemma Setup_accepts_unrelated_private_key :
  (Setup (Toy.conf ["Norg1"; "R-0Crr"; "P-0Era"; "K-b"]) Toy.fresh).1 = Ok ()
  ∧ signer (Setup (Toy.conf ["Norg1"; "R-0Crr"; "P-0Era"; "K-b"]) Toy.fresh).2
    = Some Toy.aliceWithKeyOfBob
  ∧ Key_PublicKey (pk (base Toy.aliceWithKeyOfBob)) = Toy.text "a"
  ∧ CryptoSigner_Public (cryptoSigner Toy.aliceWithKeyOfBob) = Toy.text "b"
  ∧ CryptoSigner_Public (cryptoSigner Toy.aliceWithKeyOfBob)
    ≠ Key_PublicKey (pk (base Toy.aliceWithKeyOfBob)).
Proof. repeat split; run. Qed.

Lemma Setup_signing_identity_witness :
  Unmarshal_FabricMSPConfig (World:=Toy.world)
      (Toy.unlines ["Norg1"; "R-0Crr"; "P-0Era"; "K-a"])
    = Fine (Toy.parsed ["Norg1"; "R-0Crr"; "P-0Era"; "K-a"])
  ∧ SigningIdentity (Toy.parsed ["Norg1"; "R-0Crr"; "P-0Era"; "K-a"])
    = Some {| PublicSigner := Some (Toy.text "-0Era");
              PrivateSigner := Some {| KeyIdentifier := "";
                                       KeyMaterial := Some (Toy.text "-a") |} |}
  ∧ Setup (Toy.conf ["Norg1"; "R-0Crr"; "P-0Era"; "K-a"]) Toy.fresh
    = (Ok (), (Setup (Toy.conf ["Norg1"; "R-0Crr"; "P-0Era"; "K-a"]) Toy.fresh).2)
  ∧ ∃ c k sg,
      signer (Setup (Toy.conf ["Norg1"; "R-0Crr"; "P-0Era"; "K-a"]) Toy.fresh).2
      = Some (newSigningIdentity {| Mspid := "org1"; Id := "DEFAULT" |} c k sg).
Proof.
  assert (Hrun : Setup (Toy.conf ["Norg1"; "R-0Crr"; "P-0Era"; "K-a"]) Toy.fresh
    = (Ok (), (Setup (Toy.conf ["Norg1"; "R-0Crr"; "P-0Era"; "K-a"]) Toy.fresh).2))
    by (by apply run_eq).
  split; [reflexivity|]. split; [reflexivity|]. split; [exact Hrun|].
  destruct (Setup_signing_identity Toy.fresh
              (Toy.mspConfig ["Norg1"; "R-0Crr"; "P-0Era"; "K-a"])
              (Toy.parsed ["Norg1"; "R-0Crr"; "P-0Era"; "K-a"]) _ _
              eq_refl eq_refl Hrun)
    as (certPem & bl & c & k & ki & pemKey & key & sg & Hsigner).
  exists c, k, sg. apply Hsigner.
Defined.

(** C9 at a failing input. The certificate of the signing identity is
    ingested, then the key material is decoded and the block is used
    without a nil check: with key material that is not PEM, and with no
    private key record at all, [Setup] neither succeeds nor returns an
    error, it panics on a nil dereference. The ingest of a certificate
    from the same bytes returns the decode error. *)
Theorem Setup_private_key_nil_dereference :
  (Setup (Toy.conf ["Norg1"; "R-0Crr"; "P-0Era"; "Kb"]) Toy.fresh).1
    = Panic NilDereference
  ∧ (Setup (Toy.conf ["Norg1"; "R-0Crr"; "P-0Era"]) Toy.fresh).1
    = Panic NilDereference
  ∧ ¬ returned_error
        (Setup (Toy.conf ["Norg1"; "R-0Crr"; "P-0Era"; "Kb"]) Toy.fresh).1
  ∧ getIdentityFromConf Toy.fresh (Some (Toy.text "b")) = Err ErrConfPemDecode.
Proof. repeat split; run. Qed.

(** * Further properties *)

Section SetupState.
Context `{W : World}.
Implicit Types (msp : bccspmsp) (f : certField) (l ids : list Identity).

Lemma bind_Ok {A B} (m : M A) (k : A → M B) msp (b : B) msp' :
  (m ≫= k) msp = (Ok b, msp') →
  ∃ a msp1, m msp = (Ok a, msp1) ∧ k a msp1 = (Ok b, msp').
Proof.
  rewrite bind_run. destruct (m msp) as [[a|e|p] msp1]; [eauto|done..].
Qed.

Lemma ingested_reads msp msp' (blobs : list bytes) ids :
  name msp' = name msp → bccsp msp' = bccsp msp →
  ingested msp blobs ids → ingested msp' blobs ids.
Proof.
  intros Hn Hb Hids. eapply Forall2_impl; [exact Hids|]. intros b id <-.
  by apply getIdentityFromConf_reads.
Qed.

Lemma ingested_X509 msp (blobs : list bytes) ids :
  ingested msp blobs ids → ∃ xs : list identity, ids = X509Identity <$> xs.
Proof.
  induction 1 as [|b id blobs ids Hid _ (xs & ->)]; [by exists []|].
  apply getIdentityFromConf_Ok in Hid as (i & -> & _).
  by exists (i :: xs).
Qed.

Lemma ingested_unique msp (blobs : list bytes) ids ids' :
  ingested msp blobs ids → ingested msp blobs ids' → ids = ids'.
Proof.
  intros H. revert ids'. induction H as [|b id blobs ids Hid _ IH];
    intros ids' H'; inversion H' as [|? id' ? ids'' Hid' Hrest]; subst; [done|].
  rewrite Hid in Hid'. injection Hid' as <-. f_equal. by apply IH.
Qed.

Lemma take_S_insert l i (id : Identity) :
  (i < length l)%nat → take (S i) (<[i:=id]> l) = take i l ++ [id].
Proof.
  intros Hi. rewrite (take_S_r _ _ id) by by apply list_lookup_insert_eq.
  by rewrite take_insert_ge.
Qed.

(** The loop, exactly: started at index [i] on a slice with as many free
    slots as there are blobs, it ends normally when every blob is
    ingested, and then (only then) the slots hold the identities. *)
Lemma fill_ingested f (blobs : list bytes) : ∀ i msp ids,
  length (get f msp) = (i + length blobs)%nat →
  ingested msp blobs ids →
  fill f i blobs msp = (Ok (), set f (take i (get f msp) ++ ids) msp).
Proof.
  induction blobs as [|c blobs IH]; intros i msp ids Hlen Hids;
    inversion Hids as [|? id ? ids' Hid Hrest]; subst; cbn [fill].
  - cbn in Hlen. rewrite app_nil_r, take_ge, set_get by lia. done.
  - cbn [length] in Hlen. rewrite bind_run. unfold call at 1. rewrite Hid.
    rewrite bind_run. unfold store at 1. rewrite decide_True by lia.
    rewrite (IH (S i) _ ids').
    + rewrite set_set, get_set, take_S_insert by lia.
      by rewrite <- app_assoc.
    + rewrite get_set, length_insert. lia.
    + destruct (set_name_bccsp f (<[i:=id]> (get f msp)) msp).
      by apply (ingested_reads msp).
Qed.

Lemma fill_Ok f (blobs : list bytes) : ∀ i msp msp',
  length (get f msp) = (i + length blobs)%nat →
  fill f i blobs msp = (Ok (), msp') →
  ∃ ids, ingested msp blobs ids
         ∧ msp' = set f (take i (get f msp) ++ ids) msp.
Proof.
  induction blobs as [|c blobs IH]; intros i msp msp' Hlen; cbn [fill].
  - intros [= <-]. exists []. split; [constructor|].
    cbn in Hlen. rewrite app_nil_r, take_ge, set_get by lia. done.
  - cbn [length] in Hlen. intros Hrun.
    apply bind_Ok in Hrun as (id & msp1 & Hid & Hrun).
    unfold call in Hid. injection Hid as Hid <-.
    apply bind_Ok in Hrun as ([] & msp2 & Hstore & Hrun).
    unfold store in Hstore. rewrite decide_True in Hstore by lia.
    injection Hstore as <-.
    apply IH in Hrun as (ids & Hids & ->);
      [|rewrite get_set, length_insert; lia].
    exists (id :: ids). split.
    + constructor; [done|].
      destruct (set_name_bccsp f (<[i:=id]> (get f msp)) msp).
      by apply (ingested_reads (set f (<[i:=id]> (get f msp)) msp)).
    + rewrite set_set, get_set, take_S_insert by lia.
      by rewrite <- app_assoc.
Qed.

Lemma certificates_X509 (xs : list identity) :
  certificates (X509Identity <$> xs) = cert <$> xs.
Proof. induction xs as [|x xs IH]; [done|]. cbn. by rewrite <- IH. Qed.

Lemma addCerts_addRoot (xs : list identity) : ∀ msp o,
  opts msp = Some o →
  addCerts addRoot (X509Identity <$> xs) msp
    = (Ok (), set_opts (Some {| Roots := {| certs := certs (Roots o) ++ (cert <$> xs) |};
                                Intermediates := Intermediates o |}) msp).
Proof.
  induction xs as [|x xs IH]; intros msp o Ho; cbn [fmap list_fmap addCerts].
  - rewrite app_nil_r. destruct msp, o as [[r] i]; cbn in *; by subst.
  - rewrite bind_run. unfold call at 1. cbn [as_identity]. rewrite bind_run.
    unfold addRoot at 1. rewrite bind_run. unfold call at 1. rewrite Ho.
    cbn [deref]. unfold assign at 1.
    erewrite IH by reflexivity. cbn. by rewrite <- app_assoc.
Qed.

Lemma addCerts_addIntermediate (xs : list identity) : ∀ msp o,
  opts msp = Some o →
  addCerts addIntermediate (X509Identity <$> xs) msp
    = (Ok (), set_opts (Some {| Roots := Roots o;
                                Intermediates :=
                                  {| certs := certs (Intermediates o)
                                              ++ (cert <$> xs) |} |}) msp).
Proof.
  induction xs as [|x xs IH]; intros msp o Ho; cbn [fmap list_fmap addCerts].
  - rewrite app_nil_r. destruct msp, o as [r [i]]; cbn in *; by subst.
  - rewrite bind_run. unfold call at 1. cbn [as_identity]. rewrite bind_run.
    unfold addIntermediate at 1. rewrite bind_run. unfold call at 1. rewrite Ho.
    cbn [deref]. unfold assign at 1.
    erewrite IH by reflexivity. cbn. by rewrite <- app_assoc.
Qed.

(** With identities made from certificates in both slices, the verify
    options are built without a failed type assertion, from empty pools. *)
Lemma setupOpts_X509 msp (rs xs : list identity) :
  rootCerts msp = X509Identity <$> rs →
  intermediateCerts msp = X509Identity <$> xs →
  setupOpts msp
    = (Ok (), set_opts (Some (pools (rootCerts msp) (intermediateCerts msp))) msp).
Proof.
  intros Hrs Hxs. unfold setupOpts, pools. rewrite bind_run. unfold assign at 1.
  rewrite bind_run. unfold call at 1. rewrite bind_run. cbn [rootCerts set_opts].
  rewrite Hrs. erewrite addCerts_addRoot by reflexivity.
  rewrite bind_run. unfold call at 1. cbn [intermediateCerts set_opts].
  rewrite Hxs. erewrite addCerts_addIntermediate by reflexivity.
  by rewrite !certificates_X509.
Qed.

Lemma setupAdmins_Ok (conf : FabricMSPConfig) msp msp' :
  setupAdmins conf msp = (Ok (), msp') →
  ∃ la, msp' = set_admins la msp
        ∧ match Admins conf with
          | None => la = admins msp
          | Some confAdmins => ingested msp confAdmins la
          end.
Proof.
  unfold setupAdmins. destruct (Admins conf) as [confAdmins|].
  - intros Hrun. apply bind_Ok in Hrun as ([] & msp1 & [= <-] & Hrun).
    apply (fill_Ok fieldAdmins) in Hrun as (la & Hla & ->);
      [|cbn; by rewrite length_make].
    exists la. split; [done|]. by apply (ingested_reads _ _ _ _ eq_refl eq_refl) in Hla.
  - intros [= <-]. exists (admins msp). by destruct msp.
Qed.

Lemma setupRootCerts_Ok (conf : FabricMSPConfig) msp msp' :
  setupRootCerts conf msp = (Ok (), msp') →
  len (RootCerts conf) ≠ 0
  ∧ ∃ lr, ingested msp (elems (RootCerts conf)) lr ∧ msp' = set_rootCerts lr msp.
Proof.
  unfold setupRootCerts. case_bool_decide as Hlen; [done|].
  intros Hrun. apply bind_Ok in Hrun as ([] & msp1 & [= <-] & Hrun).
  apply (fill_Ok fieldRootCerts) in Hrun as (lr & Hlr & ->);
    [|cbn; by rewrite length_make].
  split; [done|]. exists lr. split; [|done].
  by apply (ingested_reads _ _ _ _ eq_refl eq_refl) in Hlr.
Qed.

Lemma setupIntermediateCerts_Ok (conf : FabricMSPConfig) msp msp' :
  setupIntermediateCerts conf msp = (Ok (), msp') →
  ∃ li, ingested msp (elems (IntermediateCerts conf)) li
        ∧ msp' = set_intermediateCerts li msp.
Proof.
  unfold setupIntermediateCerts.
  destruct (IntermediateCerts conf) as [confIntermediateCerts|].
  - intros Hrun. apply bind_Ok in Hrun as ([] & msp1 & [= <-] & Hrun).
    apply (fill_Ok fieldIntermediateCerts) in Hrun as (li & Hli & ->);
      [|cbn; by rewrite length_make].
    exists li. split; [|done].
    by apply (ingested_reads _ _ _ _ eq_refl eq_refl) in Hli.
  - intros [= <-]. exists []. split; [constructor|done].
Qed.

Lemma setupAdmins_ingested (conf : FabricMSPConfig) msp la :
  match Admins conf with
  | None => la = admins msp
  | Some confAdmins => ingested msp confAdmins la
  end →
  setupAdmins conf msp = (Ok (), set_admins la msp).
Proof.
  unfold setupAdmins. destruct (Admins conf) as [confAdmins|].
  - intros Hla. rewrite bind_run. unfold assign at 1.
    rewrite (fill_ingested fieldAdmins confAdmins 0 _ la).
    + done.
    + cbn. by rewrite length_make.
    + by apply (ingested_reads msp).
  - intros ->. by destruct msp.
Qed.

Lemma setupRootCerts_ingested (conf : FabricMSPConfig) msp lr :
  len (RootCerts conf) ≠ 0 →
  ingested msp (elems (RootCerts conf)) lr →
  setupRootCerts conf msp = (Ok (), set_rootCerts lr msp).
Proof.
  intros Hlen Hlr. unfold setupRootCerts. rewrite bool_decide_eq_false_2 by done.
  rewrite bind_run. unfold assign at 1.
  rewrite (fill_ingested fieldRootCerts _ 0 _ lr).
  - done.
  - cbn. by rewrite length_make.
  - by apply (ingested_reads msp).
Qed.

Lemma setupIntermediateCerts_ingested (conf : FabricMSPConfig) msp li :
  ingested msp (elems (IntermediateCerts conf)) li →
  setupIntermediateCerts conf msp = (Ok (), set_intermediateCerts li msp).
Proof.
  unfold setupIntermediateCerts.
  destruct (IntermediateCerts conf) as [confIntermediateCerts|]; cbn [elems default].
  - intros Hli. rewrite bind_run. unfold assign at 1.
    rewrite (fill_ingested fieldIntermediateCerts _ 0 _ li).
    + done.
    + cbn. by rewrite length_make.
    + by apply (ingested_reads msp).
  - intros Hli. by inversion Hli.
Qed.

(** [Setup] succeeds exactly on the configurations and with the result
    that [configured] describes. *)
Lemma Setup_configured (c : MSPConfig) (conf : FabricMSPConfig) msp msp' :
  Unmarshal_FabricMSPConfig (elems (Config c)) = Fine conf →
  Setup (Some c) msp = (Ok (), msp') ↔ configured msp conf msp'.
Proof.
  intros Hconf. unfold Setup. set (msp0 := set_name (Name conf) msp). split.
  - intros Hrun.
    apply bind_Ok in Hrun as (conf' & msp1 & Hcall & Hrun).
    unfold call in Hcall. rewrite Hconf in Hcall. injection Hcall as <- <-.
    apply bind_Ok in Hrun as ([] & msp1 & [= <-] & Hrun). fold msp0 in Hrun.
    apply bind_Ok in Hrun as ([] & msp1 & Hadmins & Hrun).
    apply setupAdmins_Ok in Hadmins as (la & -> & Hla).
    apply bind_Ok in Hrun as ([] & msp2 & Hroots & Hrun).
    apply setupRootCerts_Ok in Hroots as (Hlen & lr & Hlr & ->).
    apply bind_Ok in Hrun as ([] & msp3 & Hints & Hrun).
    apply setupIntermediateCerts_Ok in Hints as (li & Hli & ->).
    apply bind_Ok in Hrun as ([] & msp4 & Hsigner & Hrun).
    apply (ingested_reads _ msp0 _ _ eq_refl eq_refl) in Hlr, Hli.
    destruct (ingested_X509 _ _ _ Hlr) as (rs & Hrs).
    destruct (ingested_X509 _ _ _ Hli) as (xs & Hxs).
    rewrite setupSigner_run in Hsigner.
    exists la, lr, li, (signer msp4). split; [done|]. split; [done|].
    split; [done|]. split; [done|].
    destruct (SigningIdentity conf) as [sidInfo|].
    + rewrite (getSigningIdentityFromConf_reads msp0) in Hsigner by done.
      destruct (getSigningIdentityFromConf msp0 (Some sidInfo)) as [sid| |]
        eqn:Hsid; [|done..].
      injection Hsigner as <-.
      rewrite (setupOpts_X509 _ rs xs) in Hrun by done.
      injection Hrun as <-. split; [by exists sid|done].
    + injection Hsigner as <-.
      rewrite (setupOpts_X509 _ rs xs) in Hrun by done.
      injection Hrun as <-. split; [done|]. by destruct msp.
  - intros (la & lr & li & sg & Hla & Hlen & Hlr & Hli & Hsg & ->).
    fold msp0 in Hla, Hlr, Hli, Hsg.
    destruct (ingested_X509 _ _ _ Hlr) as (rs & Hrs).
    destruct (ingested_X509 _ _ _ Hli) as (xs & Hxs).
    rewrite bind_run. unfold call at 1. rewrite Hconf. cbn [check].
    rewrite bind_run. unfold assign at 1. fold msp0.
    rewrite bind_run, (setupAdmins_ingested conf msp0 la) by done.
    rewrite bind_run, (setupRootCerts_ingested conf _ lr);
      [|done|by apply (ingested_reads msp0)].
    rewrite bind_run, (setupIntermediateCerts_ingested conf _ li)
      by by apply (ingested_reads msp0).
    rewrite bind_run, setupSigner_run.
    destruct (SigningIdentity conf) as [sidInfo|].
    + destruct Hsg as (sid & Hsid & ->).
      rewrite (getSigningIdentityFromConf_reads msp0), Hsid by done.
      by rewrite (setupOpts_X509 _ rs xs).
    + subst sg. rewrite (setupOpts_X509 _ rs xs) by done. by destruct msp.
Qed.

(** The only panics of the signing-identity routine are nil
    dereferences: the type assertions on the ingested identity hold. *)
Lemma getSigningIdentityFromConf_Panic msp (sidInfo : option SigningIdentityInfo)
    (p : panic) :
  getSigningIdentityFromConf msp sidInfo = Panic p →
  p = NilDereference
  ∧ ∃ si id, sidInfo = Some si
      ∧ getIdentityFromConf msp (PublicSigner si) = Ok id
      ∧ match PrivateSigner si with
        | None => True
        | Some ki => pem_Decode (elems (KeyMaterial ki)) = None
        end.
Proof.
  unfold getSigningIdentityFromConf. destruct sidInfo as [si|]; [|done].
  destruct (getIdentityFromConf_outcome msp (PublicSigner si))
    as [(i & Hid)|(e & -> & _)]; [|done].
  rewrite Hid. cbn.
  destruct (PrivateSigner si) as [ki|] eqn:Hki; cbn;
    [|intros [= <-]; split; [done|]; exists si, (X509Identity i);
      by rewrite Hki].
  destruct (pem_Decode _) as [bl|] eqn:Hbl; cbn;
    [|intros [= <-]; split; [done|]; exists si, (X509Identity i);
      by rewrite Hki].
  destruct (KeyImport_ECDSAPrivateKey _ _); cbn; [|done].
  by destruct (CryptoSigner_Init _ _).
Qed.

Lemma Setup_Panic (conf1 : option MSPConfig) msp (p : panic) msp' :
  Setup conf1 msp = (Panic p, msp') →
  p = NilDereference
  ∧ ∃ c conf, conf1 = Some c
      ∧ Unmarshal_FabricMSPConfig (elems (Config c)) = Fine conf
      ∧ getSigningIdentityFromConf (set_name (Name conf) msp)
          (SigningIdentity conf) = Panic NilDereference.
Proof.
  destruct conf1 as [c|]; [|done]. unfold Setup. rewrite bind_run. unfold call at 1.
  destruct (Unmarshal_FabricMSPConfig (elems (Config c))) as [conf|err]
    eqn:Hconf; cbn [check]; [|done].
  rewrite bind_run. unfold assign at 1. set (msp0 := set_name (Name conf) msp).
  rewrite bind_run.
  destruct (setupAdmins conf msp0) as [[[]|e|q] msp1] eqn:Hadmins; [|done|].
  2:{ destruct (setupAdmins_run conf msp0) as (r & l & Hr & [->|(e & -> & _)]);
        rewrite Hadmins in Hr; done. }
  apply setupAdmins_Ok in Hadmins as (la & -> & Hla). rewrite bind_run.
  destruct (setupRootCerts conf _) as [[[]|e|q] msp2] eqn:Hroots; [|done|].
  2:{ destruct (setupRootCerts_run conf (set_admins la msp0))
        as [(_ & Hr)|(_ & r & l & Hr & _ & [->|(e & -> & _)])];
        rewrite Hroots in Hr; done. }
  apply setupRootCerts_Ok in Hroots as (Hlen & lr & Hlr & ->). rewrite bind_run.
  destruct (setupIntermediateCerts conf _) as [[[]|e|q] msp3] eqn:Hints; [|done|].
  2:{ destruct (setupIntermediateCerts_run conf
                  (set_rootCerts lr (set_admins la msp0)))
        as (r & l & Hr & [->|(e & -> & _)]); rewrite Hints in Hr; done. }
  apply setupIntermediateCerts_Ok in Hints as (li & Hli & ->).
  destruct (ingested_X509 _ _ _ Hlr) as (rs & Hrs).
  destruct (ingested_X509 _ _ _ Hli) as (xs & Hxs).
  rewrite bind_run, setupSigner_run.
  destruct (SigningIdentity conf) as [sidInfo|] eqn:HsidInfo.
  - rewrite (getSigningIdentityFromConf_reads msp0) by done.
    destruct (getSigningIdentityFromConf msp0 (Some sidInfo)) as [sid|e|q] eqn:Hsid.
    + by rewrite (setupOpts_X509 _ rs xs).
    + done.
    + intros [= <- <-].
      destruct (getSigningIdentityFromConf_Panic _ _ _ Hsid) as [-> _].
      split; [done|]. exists c, conf. by rewrite HsidInfo.
  - by rewrite (setupOpts_X509 _ rs xs).
Qed.

Lemma configured_fields msp (conf : FabricMSPConfig) msp' :
  configured msp conf msp' →
  name msp' = Name conf ∧ bccsp msp' = bccsp msp
  ∧ ingested msp' (elems (RootCerts conf)) (rootCerts msp')
  ∧ ingested msp' (elems (IntermediateCerts conf)) (intermediateCerts msp')
  ∧ opts msp' = Some (pools (rootCerts msp') (intermediateCerts msp')).
Proof.
  intros (la & lr & li & sg & Hla & Hlen & Hlr & Hli & Hsg & ->). cbn.
  repeat split; by eapply ingested_reads; [..|eassumption].
Qed.

(** X1. After a successful [Setup] the root and intermediate slices hold
    one identity per blob of the configuration, in its order, each the
    ingest of its blob under the new name and none a nil slot; the name is
    the one of the configuration and the two pools of the verify options
    hold the certificates of exactly these identities. *)
Theorem Setup_Ok_trust_material (c : MSPConfig) (conf : FabricMSPConfig)
    msp msp' :
  Unmarshal_FabricMSPConfig (elems (Config c)) = Fine conf →
  Setup (Some c) msp = (Ok (), msp') →
  name msp' = Name conf
  ∧ ingested msp' (elems (RootCerts conf)) (rootCerts msp')
  ∧ ingested msp' (elems (IntermediateCerts conf)) (intermediateCerts msp')
  ∧ (∃ rs xs : list identity,
       rootCerts msp' = X509Identity <$> rs
       ∧ intermediateCerts msp' = X509Identity <$> xs
       ∧ opts msp' = Some {| Roots := {| certs := cert <$> rs |};
                            Intermediates := {| certs := cert <$> xs |} |}).
Proof.
  intros Hconf Hrun. apply (Setup_configured c conf _ _ Hconf) in Hrun.
  destruct (configured_fields _ _ _ Hrun) as (Hname & _ & Hlr & Hli & Hopts).
  repeat split; [done..|].
  destruct (ingested_X509 _ _ _ Hlr) as (rs & Hrs).
  destruct (ingested_X509 _ _ _ Hli) as (xs & Hxs).
  exists rs, xs. rewrite Hopts, Hrs, Hxs. unfold pools.
  by rewrite !certificates_X509.
Qed.

(** X2. What a successful [Setup] does with the parts that a
    configuration may lack: without an admin list the admins of before
    stay, with one they are the ingested admins; without a signing
    identity record the signer of before stays; without intermediates the
    intermediate slice becomes empty. *)
Theorem Setup_Ok_absent_parts (c : MSPConfig) (conf : FabricMSPConfig)
    msp msp' :
  Unmarshal_FabricMSPConfig (elems (Config c)) = Fine conf →
  Setup (Some c) msp = (Ok (), msp') →
  match Admins conf with
  | None => admins msp' = admins msp
  | Some confAdmins => ingested msp' confAdmins (admins msp')
  end
  ∧ match SigningIdentity conf with
    | None => signer msp' = signer msp
    | Some _ => signer msp' ≠ None
    end
  ∧ match IntermediateCerts conf with
    | None => intermediateCerts msp' = []
    | Some confIntermediateCerts =>
        length (intermediateCerts msp') = length confIntermediateCerts
    end.
Proof.
  intros Hconf Hrun. apply (Setup_configured c conf _ _ Hconf) in Hrun.
  destruct Hrun as (la & lr & li & sg & Hla & Hlen & Hlr & Hli & Hsg & ->).
  cbn. split; [|split].
  - destruct (Admins conf); [|done]. by eapply ingested_reads; [..|eassumption].
  - destruct (SigningIdentity conf); [|done]. by destruct Hsg as (sid & _ & ->).
  - destruct (IntermediateCerts conf) as [ics|]; cbn in Hli.
    + symmetry. by eapply Forall2_length.
    + by inversion Hli.
Qed.

Lemma getIdentityFromConf_any_name msp msp' (b : bytes) (id : Identity) :
  bccsp msp' = bccsp msp →
  getIdentityFromConf msp b = Ok id →
  ∃ id', getIdentityFromConf msp' b = Ok id'.
Proof.
  intros Hb. unfold getIdentityFromConf. rewrite Hb.
  destruct b as [idBytes|]; [|done]. destruct (pem_Decode _); [|done].
  destruct (x509_ParseCertificate _); cbn; [|done].
  destruct (KeyImport_X509PublicKey _ _); cbn; [eauto|done].
Qed.

Lemma getSigningIdentityFromConf_any_name msp msp' sidInfo
    (sid : signingidentity) :
  bccsp msp' = bccsp msp →
  getSigningIdentityFromConf msp sidInfo = Ok sid →
  ∃ sid', getSigningIdentityFromConf msp' sidInfo = Ok sid'.
Proof.
  intros Hb. unfold getSigningIdentityFromConf, getIdentityFromConf. rewrite Hb.
  destruct sidInfo as [si|]; [|done].
  destruct (PublicSigner si) as [idBytes|]; [|done].
  destruct (pem_Decode idBytes); [|done].
  destruct (x509_ParseCertificate _); cbn; [|done].
  destruct (KeyImport_X509PublicKey _ _); cbn; [|done].
  destruct (PrivateSigner si); cbn; [|done].
  destruct (pem_Decode (elems _)); cbn; [|done].
  destruct (KeyImport_ECDSAPrivateKey _ _); cbn; [|done].
  destruct (CryptoSigner_Init _ _); cbn; [eauto|done].
Qed.

Lemma ingested_all msp (blobs : list bytes) :
  Forall (λ b, ∃ id, getIdentityFromConf msp b = Ok id) blobs
  ↔ ∃ ids, ingested msp blobs ids.
Proof.
  split.
  - induction 1 as [|b blobs [id Hid] _ [ids Hids]];
      [exists []; constructor|].
    exists (id :: ids). by constructor.
  - intros [ids Hids]. induction Hids; constructor; eauto.
Qed.

(** X3. [Setup] succeeds exactly when the configuration has a root, each
    of its admin, root and intermediate blobs is ingested and its signing
    identity, if it has one, can be built. Of the provider only the crypto
    provider matters: its former name, slices, signer and options do not. *)
Theorem Setup_Ok_iff (c : MSPConfig) (conf : FabricMSPConfig) msp :
  Unmarshal_FabricMSPConfig (elems (Config c)) = Fine conf →
  (∃ msp', Setup (Some c) msp = (Ok (), msp'))
  ↔ len (RootCerts conf) ≠ 0
    ∧ Forall (λ b, ∃ id, getIdentityFromConf msp b = Ok id)
        (elems (Admins conf) ++ elems (RootCerts conf)
           ++ elems (IntermediateCerts conf))
    ∧ match SigningIdentity conf with
      | None => True
      | Some sidInfo =>
          ∃ sid, getSigningIdentityFromConf msp (Some sidInfo) = Ok sid
      end.
Proof.
  intros Hconf. set (msp0 := set_name (Name conf) msp).
  assert (Hany : ∀ blobs,
    Forall (λ b, ∃ id, getIdentityFromConf msp b = Ok id) blobs
    ↔ ∃ ids, ingested msp0 blobs ids).
  { intros blobs. rewrite <- ingested_all. apply Forall_iff. intros b.
    split; intros [id Hid];
      by eapply getIdentityFromConf_any_name; [|exact Hid]. }
  rewrite !Forall_app, !Hany. split.
  - intros [msp' Hrun]. apply (Setup_configured c conf _ _ Hconf) in Hrun.
    destruct Hrun as (la & lr & li & sg & Hla & Hlen & Hlr & Hli & Hsg & _).
    split; [done|]. split; [|].
    + split; [|eauto]. destruct (Admins conf); [eauto|].
      exists []. constructor.
    + destruct (SigningIdentity conf) as [si|]; [|done].
      destruct Hsg as (sid & Hsid & _).
      by eapply (getSigningIdentityFromConf_any_name msp0); [|exact Hsid].
  - intros (Hlen & ([la Hla] & [lr Hlr] & [li Hli]) & Hsg).
    assert (∃ sg, match SigningIdentity conf with
                  | None => sg = signer msp
                  | Some sidInfo =>
                      ∃ sid, getSigningIdentityFromConf msp0 (Some sidInfo)
                               = Ok sid ∧ sg = Some sid
                  end) as [sg Hsg'].
    { destruct (SigningIdentity conf) as [si|]; [|eauto].
      destruct Hsg as [sid Hsid].
      destruct (getSigningIdentityFromConf_any_name msp msp0 _ _ eq_refl Hsid)
        as [sid' Hsid'].
      eauto. }
    eexists. apply (Setup_configured c conf _ _ Hconf).
    exists (match Admins conf with None => admins msp | Some _ => la end),
      lr, li, sg.
    split; [by destruct (Admins conf)|]. done.
Qed.

(** X4. A successful [Setup] replaces what the provider was: started on
    another provider with the same crypto provider, and with the same
    admins and signer where the configuration brings none, it succeeds
    with the same result, whatever the name, the roots, the intermediates
    and the verify options of that provider are. *)
Theorem Setup_Ok_replaces (c : MSPConfig) (conf : FabricMSPConfig)
    msp msp2 msp' :
  Unmarshal_FabricMSPConfig (elems (Config c)) = Fine conf →
  bccsp msp2 = bccsp msp →
  match Admins conf with
  | None => admins msp2 = admins msp
  | Some _ => True
  end →
  match SigningIdentity conf with
  | None => signer msp2 = signer msp
  | Some _ => True
  end →
  Setup (Some c) msp = (Ok (), msp') →
  Setup (Some c) msp2 = (Ok (), msp').
Proof.
  intros Hconf Hb Hadmins Hsigner Hrun.
  apply (Setup_configured c conf _ _ Hconf) in Hrun.
  apply (Setup_configured c conf _ _ Hconf).
  destruct Hrun as (la & lr & li & sg & Hla & Hlen & Hlr & Hli & Hsg & ->).
  exists la, lr, li, sg. rewrite Hb.
  assert (Hreads : ∀ blobs ids,
    ingested (set_name (Name conf) msp) blobs ids →
    ingested (set_name (Name conf) msp2) blobs ids)
    by (intros blobs ids; by apply ingested_reads).
  split; [destruct (Admins conf); [by apply Hreads|congruence]|].
  split; [done|]. split; [by apply Hreads|]. split; [by apply Hreads|].
  split; [|done].
  destruct (SigningIdentity conf); [|congruence].
  by rewrite (getSigningIdentityFromConf_reads (set_name (Name conf) msp)).
Qed.

(** X5. [Setup] is idempotent: after a successful run, a second run with
    the same configuration succeeds and leaves the provider as it is. *)
Theorem Setup_idempotent (conf1 : option MSPConfig) msp msp' :
  Setup conf1 msp = (Ok (), msp') →
  Setup conf1 msp' = (Ok (), msp').
Proof.
  intros Hrun. destruct (Setup_Ok _ _ _ Hrun) as (_ & c & conf & -> & Hconf & _).
  pose proof Hrun as Hcfg. apply (Setup_configured c conf _ _ Hconf) in Hcfg.
  apply (Setup_configured c conf _ _ Hconf).
  destruct Hcfg as (la & lr & li & sg & Hla & Hlen & Hlr & Hli & Hsg & ->).
  exists la, lr, li, sg. cbn [admins signer bccsp].
  assert (Hreads : ∀ blobs ids,
    ingested (set_name (Name conf) msp) blobs ids →
    ingested (set_name (Name conf) {| rootCerts := lr; intermediateCerts := li;
       signer := sg; admins := la; bccsp := bccsp msp; name := Name conf;
       opts := Some (pools lr li) |}) blobs ids)
    by (intros blobs ids; by apply ingested_reads).
  split; [destruct (Admins conf); [by apply Hreads|done]|].
  split; [done|]. split; [by apply Hreads|]. split; [by apply Hreads|].
  split; [|done].
  destruct (SigningIdentity conf) as [si|]; [|done].
  destruct Hsg as (sid & Hsid & ->). exists sid. split; [|done].
  by rewrite (getSigningIdentityFromConf_reads (set_name (Name conf) msp)).
Qed.

(** X6. The one way for [Setup] to panic is the unchecked decode of the
    private key: the configuration then has a signing-identity record whose
    certificate was ingested and whose private key record is absent or
    holds key material that is not PEM, and the panic is a nil
    dereference. No indexed store is out of range, no type assertion fails
    and the verify options are never dereferenced while nil. *)
Theorem Setup_Panic_private_key (conf1 : option MSPConfig) msp (p : panic) msp' :
  Setup conf1 msp = (Panic p, msp') →
  p = NilDereference
  ∧ ∃ c conf sidInfo,
      conf1 = Some c
      ∧ Unmarshal_FabricMSPConfig (elems (Config c)) = Fine conf
      ∧ SigningIdentity conf = Some sidInfo
      ∧ certificateOf (PublicSigner sidInfo) ≠ None
      ∧ match PrivateSigner sidInfo with
        | None => True
        | Some ki => pem_Decode (elems (KeyMaterial ki)) = None
        end.
Proof.
  intros Hrun. apply Setup_Panic in Hrun as (-> & c & conf & -> & Hconf & Hsid).
  split; [done|].
  apply getSigningIdentityFromConf_Panic in Hsid
    as (_ & si & id & Hsome & Hid & Hkey).
  exists c, conf, si. repeat split; [done..| |done].
  revert Hid. unfold getIdentityFromConf, certificateOf.
  destruct (PublicSigner si) as [idBytes|]; [|done].
  destruct (pem_Decode idBytes); [|done].
  by destruct (x509_ParseCertificate _).
Qed.

Lemma getIdentityFromConf_certificateOf msp (b : bytes) (i : identity) :
  getIdentityFromConf msp b = Ok (X509Identity i) →
  certificateOf b = Some (cert i).
Proof.
  unfold getIdentityFromConf, certificateOf.
  destruct b as [idBytes|]; [|done]. destruct (pem_Decode _); [|done].
  destruct (x509_ParseCertificate _); cbn; [|done].
  destruct (KeyImport_X509PublicKey _ _); cbn; [|done]. by intros [= <-].
Qed.

Lemma ingested_certificateOf msp (blobs : list bytes) (xs : list identity) :
  ingested msp blobs (X509Identity <$> xs) →
  Forall2 (λ b c, certificateOf b = Some c) blobs (cert <$> xs).
Proof.
  revert blobs. induction xs as [|x xs IH]; intros blobs Hids;
    inversion Hids as [|b ? blobs' ? Hid Hrest]; subst; constructor.
  - by eapply getIdentityFromConf_certificateOf.
  - by apply IH.
Qed.

(** The pools that a successful [Setup] builds hold the certificates of
    the root and intermediate blobs of the configuration, in order. *)
Lemma Setup_Ok_pools (c : MSPConfig) (conf : FabricMSPConfig) msp msp' :
  Unmarshal_FabricMSPConfig (elems (Config c)) = Fine conf →
  Setup (Some c) msp = (Ok (), msp') →
  ∃ roots intermediates,
    Forall2 (λ b c, certificateOf b = Some c) (elems (RootCerts conf)) roots
    ∧ Forall2 (λ b c, certificateOf b = Some c)
        (elems (IntermediateCerts conf)) intermediates
    ∧ opts msp' = Some {| Roots := {| certs := roots |};
                         Intermediates := {| certs := intermediates |} |}.
Proof.
  intros Hconf Hrun. apply (Setup_configured c conf _ _ Hconf) in Hrun.
  destruct (configured_fields _ _ _ Hrun) as (_ & _ & Hlr & Hli & Hopts).
  destruct (ingested_X509 _ _ _ Hlr) as (rs & Hrs).
  destruct (ingested_X509 _ _ _ Hli) as (xs & Hxs).
  rewrite Hrs in Hlr. rewrite Hxs in Hli.
  exists (cert <$> rs), (cert <$> xs).
  split; [by eapply ingested_certificateOf|].
  split; [by eapply ingested_certificateOf|].
  rewrite Hopts, Hrs, Hxs. unfold pools. by rewrite !certificates_X509.
Qed.

(** X7. After a successful [Setup], [Validate] refuses a CA certificate
    and otherwise answers what [Verify] answers against exactly the
    certificates of the root blobs and of the intermediate blobs of the
    configuration, in order: nothing of an earlier [Setup] is left in the
    pools. *)
Theorem Validate_after_Setup (c : MSPConfig) (conf : FabricMSPConfig)
    msp msp' (i : identity) :
  Unmarshal_FabricMSPConfig (elems (Config c)) = Fine conf →
  Setup (Some c) msp = (Ok (), msp') →
  ∃ roots intermediates,
    Forall2 (λ b c, certificateOf b = Some c) (elems (RootCerts conf)) roots
    ∧ Forall2 (λ b c, certificateOf b = Some c)
        (elems (IntermediateCerts conf)) intermediates
    ∧ Validate msp' (X509Identity i) =
        if cert_IsCA (cert i) then Err ErrCAUsedAsIdentity
        else match Certificate_Verify (cert i) roots intermediates with
             | Some err => Err (ErrVerify err)
             | None => Ok ()
             end.
Proof.
  intros Hconf Hrun.
  destruct (Setup_Ok_pools c conf msp msp' Hconf Hrun)
    as (roots & intermediates & Hroots & Hints & Hopts).
  exists roots, intermediates. split; [done|]. split; [done|].
  cbn. by rewrite Hopts.
Qed.

(** X8. After a successful [Setup] with a signing-identity record,
    [GetDefaultSigningIdentity] returns the signing identity built from
    that record: identifier (name of the configuration, "DEFAULT"), the
    certificate decoded from the record. [GetIdentifier] returns the
    name of the configuration, and [GetSigningIdentity], asked for the
    identifier of that very identity, returns no identity and no error. *)
Theorem GetDefaultSigningIdentity_after_Setup (c : MSPConfig)
    (conf : FabricMSPConfig) (sidInfo : SigningIdentityInfo) msp msp' :
  Unmarshal_FabricMSPConfig (elems (Config c)) = Fine conf →
  SigningIdentity conf = Some sidInfo →
  Setup (Some c) msp = (Ok (), msp') →
  ∃ sid, GetDefaultSigningIdentity msp' = Fine sid
    ∧ getSigningIdentityFromConf msp' (Some sidInfo) = Ok sid
    ∧ ident (base sid) = {| Mspid := Name conf; Id := "DEFAULT" |}
    ∧ certificateOf (PublicSigner sidInfo) = Some (cert (base sid))
    ∧ GetIdentifier msp' = Fine (Name conf)
    ∧ GetSigningIdentity msp' (ident (base sid)) = Fine None.
Proof.
  intros Hconf Hsid Hrun. apply (Setup_configured c conf _ _ Hconf) in Hrun.
  destruct Hrun as (la & lr & li & sg & _ & _ & _ & _ & Hsg & ->).
  rewrite Hsid in Hsg. destruct Hsg as (sid & Hget & ->).
  exists sid. split; [done|].
  split; [by rewrite (getSigningIdentityFromConf_reads (set_name (Name conf) msp))|].
  pose proof Hget as Hparts.
  apply getSigningIdentityFromConf_Ok in Hparts
    as (certPem & bl & crt & k & ki & pemKey & key & sg & Hpub & Hbl & Hcrt
        & _ & _ & _ & _ & _ & ->).
  repeat split. unfold certificateOf. by rewrite Hpub, Hbl, Hcrt.
Qed.

(** X9. A provider from [NewBccspMsp] has no default signing identity,
    and no run of [Setup] with a configuration without signing-identity
    record gives it one, however that run ends. *)
Theorem GetDefaultSigningIdentity_without_record (csp : BCCSP) msp
    (c : MSPConfig) (conf : FabricMSPConfig) :
  NewBccspMsp (Fine csp) = Fine msp →
  Unmarshal_FabricMSPConfig (elems (Config c)) = Fine conf →
  SigningIdentity conf = None →
  GetDefaultSigningIdentity msp
    = Failed "This MSP does not possess a valid default signing identity"
  ∧ GetDefaultSigningIdentity (Setup (Some c) msp).2
    = Failed "This MSP does not possess a valid default signing identity".
Proof.
  intros Hnew Hconf Hsid.
  assert (Hnone : signer msp = None) by (by injection Hnew as <-).
  unfold GetDefaultSigningIdentity at 1. rewrite Hnone. split; [done|].
  destruct (Setup_run c conf msp Hconf)
    as (r & la & lr & li & sg & o & Hrun & Hr).
  rewrite Hrun. unfold GetDefaultSigningIdentity. cbn. destruct r as [[]|e|p].
  - destruct Hr as (_ & _ & _ & Hsg). rewrite Hsid in Hsg. by rewrite Hsg, Hnone.
  - destruct Hr as (_ & -> & _). by rewrite Hnone.
  - apply Setup_Panic in Hrun as (_ & c' & conf' & [= <-] & Hconf' & Hpanic).
    rewrite Hconf in Hconf'. injection Hconf' as <-. by rewrite Hsid in Hpanic.
Qed.

End SetupState.

Section Identities.
Context `{W : World}.
Implicit Types (msp : bccspmsp) (id : Identity) (p : MSPPrincipal).

(** X10. The ingest routine of [Setup] and the routine behind
    [DeserializeIdentity] accept the same byte strings and make of them
    identities with the same certificate, the same public key and the name
    of the provider; the local id is "IDENTITY" for the one and "DEFAULT"
    for the other. On a nil slice the first returns its nil error, the
    second behaves as on the empty slice. *)
Theorem getIdentityFromConf_deserializeIdentityInternal msp
    (idBytes : list byte) :
  match getIdentityFromConf msp (Some idBytes),
        deserializeIdentityInternal msp (Some idBytes) with
  | Ok (X509Identity i), Ok (X509Identity j) =>
      cert i = cert j ∧ pk i = pk j
      ∧ ident i = {| Mspid := name msp; Id := "IDENTITY" |}
      ∧ ident j = {| Mspid := name msp; Id := "DEFAULT" |}
  | Err _, Err _ => True
  | _, _ => False
  end
  ∧ getIdentityFromConf msp None = Err ErrNilIdBytes
  ∧ deserializeIdentityInternal msp None
    = deserializeIdentityInternal msp (Some []).
Proof.
  split; [|done]. unfold getIdentityFromConf, deserializeIdentityInternal.
  change (elems (Some idBytes)) with idBytes.
  destruct (pem_Decode idBytes) as [bl|]; [|done].
  destruct (x509_ParseCertificate _) as [crt|err]; cbn; [|done].
  by destruct (KeyImport_X509PublicKey _ _).
Qed.

(** X11. Every identity that [DeserializeIdentity] returns is made from
    a certificate: its provider name is the name of the provider and the
    one written in the record, its local id is "DEFAULT", its certificate
    is the parse of the PEM block of the record and its public key the one
    imported from that certificate. *)
Theorem DeserializeIdentity_returns msp (b : bytes) id :
  DeserializeIdentity msp b = Ok id →
  ∃ (i : identity) (sId : SerializedIdentity),
    id = X509Identity i
    ∧ Unmarshal_SerializedIdentity (elems b) = Fine sId
    ∧ sid_Mspid sId = name msp
    ∧ ident i = {| Mspid := name msp; Id := "DEFAULT" |}
    ∧ certificateOf (Some (elems (sid_IdBytes sId))) = Some (cert i)
    ∧ KeyImport_X509PublicKey (bccsp msp) (cert i) = Fine (pk i).
Proof.
  rewrite DeserializeIdentity_cases. unfold certificateOf.
  destruct (Unmarshal_SerializedIdentity _) as [sId|] eqn:Hwire; [|done].
  destruct (String.eqb_spec (sid_Mspid sId) (name msp)) as [Heq|]; [|done].
  destruct (pem_Decode _) as [bl|] eqn:Hbl; [|done].
  destruct (x509_ParseCertificate _) as [crt|] eqn:Hcrt; [|done].
  destruct (KeyImport_X509PublicKey _ _) as [k|] eqn:Hk; [|done].
  intros [= <-].
  exists {| ident := {| Mspid := name msp; Id := "DEFAULT" |};
            cert := crt; pk := k |}, sId.
  cbn. by rewrite Hbl, Hcrt.
Qed.

(** X12. An IDENTITY principal is decided by comparing bytes and by
    nothing else: the answer is the same on every provider, set up or
    not, and whether or not [Validate] accepts the identity; it is success
    exactly when the serialized identity equals the payload. *)
Theorem SatisfiesPrincipal_IDENTITY msp msp' id p (wire : list byte) :
  PrincipalClassification p = MSPPrincipal_IDENTITY →
  Serialize id = Ok (Fine wire) →
  SatisfiesPrincipal msp id (Some p) = SatisfiesPrincipal msp' id (Some p)
  ∧ SatisfiesPrincipal msp id (Some p)
    = if bool_decide (wire = elems (Principal p)) then Ok ()
      else Err ErrIdentitiesDoNotMatch.
Proof.
  intros Hclass Hwire. unfold SatisfiesPrincipal. cbn.
  by rewrite Hclass, Hwire.
Qed.

(** X13. For a principal that is not nil and an identity whose own
    methods [GetMSPIdentifier] and [Serialize] return,
    [SatisfiesPrincipal] panics in two cases only, both with "Not yet
    implemented": the principal is an ORGANIZATION_UNIT, or it is a ROLE
    that decodes to ADMIN of this very provider. In every other case it
    returns. *)
Theorem SatisfiesPrincipal_Panic_iff msp id p (q : panic) (mspid : string)
    (wire : outcome (list byte)) :
  GetMSPIdentifier id = Ok mspid →
  Serialize id = Ok wire →
  SatisfiesPrincipal msp id (Some p) = Panic q
  ↔ q = Explicit "Not yet implemented"
    ∧ (PrincipalClassification p = MSPPrincipal_ORGANIZATION_UNIT
       ∨ (PrincipalClassification p = MSPPrincipal_ROLE
          ∧ ∃ mspRole, Unmarshal_MSPRole (elems (Principal p)) = Fine mspRole
              ∧ MSPIdentifier mspRole = name msp
              ∧ Role mspRole = MSPRole_ADMIN)).
Proof.
  intros Hmspid Hwire. split.
  - destruct (PrincipalClassification p) eqn:Hclass.
    + destruct (Unmarshal_MSPRole (elems (Principal p))) as [mspRole|err]
        eqn:Hrole.
      * rewrite (SatisfiesPrincipal_ROLE _ _ _ _ Hclass Hrole).
        destruct (String.eqb_spec (MSPIdentifier mspRole) (name msp)) as [Hn|].
        -- destruct (Role mspRole) eqn:Hr.
           ++ destruct id as [|i|g]; cbn; [done| |done].
              destruct (opts msp); [|done]. destruct (cert_IsCA _); [done|].
              by destruct (Certificate_Verify _ _ _).
           ++ intros [= <-]. split; [done|]. right. split; [done|]. eauto.
           ++ done.
        -- by rewrite Hmspid.
      * unfold SatisfiesPrincipal. cbn. by rewrite Hclass, Hrole.
    + rewrite (SatisfiesPrincipal_ORGANIZATION_UNIT _ _ _ Hclass).
      intros [= <-]. auto.
    + unfold SatisfiesPrincipal. cbn. rewrite Hclass, Hwire. cbn.
      destruct wire; cbn; [|done]. by case_bool_decide.
    + unfold SatisfiesPrincipal. cbn. by rewrite Hclass.
  - intros (-> & [Hou|(Hclass & mspRole & Hrole & Hn & Hadmin)]).
    + by apply SatisfiesPrincipal_ORGANIZATION_UNIT.
    + rewrite (SatisfiesPrincipal_ROLE _ _ _ _ Hclass Hrole), Hn, Hadmin.
      by rewrite String.eqb_refl.
Qed.

(** X14. The membership check end to end: after a successful [Setup], an
    identity that [DeserializeIdentity] returns satisfies the principal
    "MEMBER of this provider" exactly when its certificate is not a CA
    certificate and [Verify] accepts it against the certificates of the
    root and intermediate blobs of the configuration. *)
Theorem SatisfiesPrincipal_MEMBER_after_Setup (c : MSPConfig)
    (conf : FabricMSPConfig) msp msp' (b : bytes) id p (mspRole : MSPRole) :
  Unmarshal_FabricMSPConfig (elems (Config c)) = Fine conf →
  Setup (Some c) msp = (Ok (), msp') →
  DeserializeIdentity msp' b = Ok id →
  PrincipalClassification p = MSPPrincipal_ROLE →
  Unmarshal_MSPRole (elems (Principal p)) = Fine mspRole →
  MSPIdentifier mspRole = Name conf →
  Role mspRole = MSPRole_MEMBER →
  ∃ (i : identity) roots intermediates,
    id = X509Identity i
    ∧ Forall2 (λ b c, certificateOf b = Some c) (elems (RootCerts conf)) roots
    ∧ Forall2 (λ b c, certificateOf b = Some c)
        (elems (IntermediateCerts conf)) intermediates
    ∧ (SatisfiesPrincipal msp' id (Some p) = Ok ()
       ↔ cert_IsCA (cert i) = false
         ∧ Certificate_Verify (cert i) roots intermediates = None).
Proof.
  intros Hconf Hrun Hid Hclass Hrole Hn Hmember.
  destruct (Setup_Ok_pools c conf msp msp' Hconf Hrun)
    as (roots & intermediates & Hroots & Hints & Hopts).
  destruct (Setup_Ok _ _ _ Hrun) as (_ & c' & conf' & [= <-] & Hconf' & Hname & _).
  rewrite Hconf in Hconf'. injection Hconf' as <-.
  apply DeserializeIdentity_Ok in Hid as (i & -> & _).
  exists i, roots, intermediates. split; [done|]. split; [done|]. split; [done|].
  rewrite (SatisfiesPrincipal_ROLE _ _ _ _ Hclass Hrole), Hn, <- Hname.
  rewrite String.eqb_refl, Hmember. cbn. rewrite Hopts. cbn.
  destruct (cert_IsCA (cert i)); [by split; [|intros []]|].
  destruct (Certificate_Verify _ _ _); by split; [|intros []].
Qed.

(** X15. [Validate] looks at the certificate of the identity and at the
    verify options of the provider, and at nothing else: two identities
    with the same certificate get the same answer from two providers with
    the same options, whatever provider name and local id they carry and
    whatever the names, admins and signers of the providers are. It never
    panics, and an identity that is nil or of another type is refused. *)
Theorem Validate_certificate_only msp msp' (i j : identity) :
  cert i = cert j →
  opts msp = opts msp' →
  Validate msp (X509Identity i) = Validate msp' (X509Identity j)
  ∧ (∀ id (q : panic), Validate msp id ≠ Panic q)
  ∧ (∀ id, Validate msp id = Ok () → ∃ k : identity, id = X509Identity k).
Proof.
  intros Hcert Hopts. split; [by cbn; rewrite Hcert, Hopts|]. split.
  - intros [|k|g] q; cbn; [done| |done].
    destruct (opts msp); [|done]. destruct (cert_IsCA _); [done|].
    by destruct (Certificate_Verify _ _ _).
  - intros [|k|g]; cbn; [done|eauto|done].
Qed.

End Identities.

Section SetupFailure.
Context `{W : World}.
Implicit Types (msp : bccspmsp) (f : certField) (l ids : list Identity).

(** The loop, stopped by a blob: the slots before it hold the identities
    ingested so far, its own slot and the ones after it are untouched,
    and the error of the blob is returned. *)
Lemma fill_Err f (b : bytes) (post : list bytes) (e : error) :
  ∀ (pre : list bytes) i msp ids,
    length (get f msp) = (i + length (pre ++ b :: post))%nat →
    ingested msp pre ids →
    getIdentityFromConf msp b = Err e →
    fill f i (pre ++ b :: post) msp
      = (Err e, set f (take i (get f msp) ++ ids
                         ++ drop (i + length pre) (get f msp)) msp).
Proof.
  induction pre as [|c pre IH]; intros i msp ids Hlen Hids Hb;
    inversion Hids as [|? id ? ids' Hid Hrest]; subst; cbn [app fill].
  - rewrite bind_run. unfold call at 1. rewrite Hb.
    cbn [length app]. by rewrite Nat.add_0_r, take_drop, set_get.
  - cbn [app length] in Hlen. rewrite bind_run. unfold call at 1. rewrite Hid.
    rewrite bind_run. unfold store at 1. rewrite decide_True by lia.
    destruct (set_name_bccsp f (<[i:=id]> (get f msp)) msp) as [Hn Hc].
    rewrite (IH (S i) _ ids').
    + rewrite set_set, get_set, take_S_insert by lia.
      rewrite drop_insert_lt by lia. cbn [length].
      by rewrite <- app_assoc, Nat.add_succ_r.
    + rewrite get_set, length_insert. lia.
    + by apply (ingested_reads msp).
    + by rewrite (getIdentityFromConf_reads msp).
Qed.

Lemma make_partial (ids : list Identity) (n k : nat) :
  length ids = k →
  take 0 (make (k + S n)) ++ ids ++ drop (0 + k) (make (k + S n))
    = ids ++ replicate (S n) NilIdentity.
Proof. intros <-. unfold make. cbn. by rewrite drop_replicate_add. Qed.

(** X16. The admins come first: when an admin blob is not ingested,
    [Setup] returns the error of the first such blob without looking at
    the roots, be there none at all. Apart from the name, it leaves only
    the admin slice changed: that slice has been made anew, and holds the
    identities of the blobs before the failing one followed by nil
    interface values. *)
Theorem Setup_Err_admin (c : MSPConfig) (conf : FabricMSPConfig) msp
    (pre post : list bytes) (b : bytes) (e : error) ids :
  Unmarshal_FabricMSPConfig (elems (Config c)) = Fine conf →
  Admins conf = Some (pre ++ b :: post) →
  ingested (set_name (Name conf) msp) pre ids →
  getIdentityFromConf (set_name (Name conf) msp) b = Err e →
  Setup (Some c) msp
    = (Err e,
       set_admins (ids ++ replicate (S (length post)) NilIdentity)
         (set_name (Name conf) msp)).
Proof.
  intros Hconf Hadmins Hids Hb. unfold Setup.
  rewrite bind_run. unfold call at 1. rewrite Hconf. cbn [check].
  rewrite bind_run. unfold assign at 1. rewrite bind_run.
  unfold setupAdmins. rewrite Hadmins. rewrite bind_run. unfold assign at 1.
  rewrite (fill_Err fieldAdmins b post e pre 0 _ ids).
  - rewrite length_app. cbn [length get set_admins admins set].
    by rewrite (make_partial ids (length post) (length pre))
      by (symmetry; by eapply Forall2_length).
  - cbn. by rewrite length_make.
  - by eapply ingested_reads; [..|exact Hids].
  - by rewrite (getIdentityFromConf_reads (set_name (Name conf) msp)).
Qed.

(** X17. When the admins are settled and a root blob is not ingested,
    [Setup] returns the error of the first such blob and leaves the root
    slice made anew: the identities of the roots before the failing one,
    then nil interface values. The intermediates, the signer and the
    verify options are the ones from before the call. *)
Theorem Setup_Err_root (c : MSPConfig) (conf : FabricMSPConfig) msp
    (pre post : list bytes) (b : bytes) (e : error) la ids :
  Unmarshal_FabricMSPConfig (elems (Config c)) = Fine conf →
  match Admins conf with
  | None => la = admins msp
  | Some confAdmins => ingested (set_name (Name conf) msp) confAdmins la
  end →
  elems (RootCerts conf) = pre ++ b :: post →
  ingested (set_name (Name conf) msp) pre ids →
  getIdentityFromConf (set_name (Name conf) msp) b = Err e →
  Setup (Some c) msp
    = (Err e,
       set_rootCerts (ids ++ replicate (S (length post)) NilIdentity)
         (set_admins la (set_name (Name conf) msp))).
Proof.
  intros Hconf Hla Hroots Hids Hb. unfold Setup.
  rewrite bind_run. unfold call at 1. rewrite Hconf. cbn [check].
  rewrite bind_run. unfold assign at 1.
  rewrite bind_run, (setupAdmins_ingested conf _ la) by done.
  rewrite bind_run. unfold setupRootCerts, len. rewrite Hroots.
  rewrite bool_decide_eq_false_2
    by (rewrite length_app; cbn [length]; lia).
  rewrite bind_run. unfold assign at 1.
  rewrite (fill_Err fieldRootCerts b post e pre 0 _ ids).
  - rewrite length_app. cbn [length get set_rootCerts rootCerts set].
    by rewrite (make_partial ids (length post) (length pre))
      by (symmetry; by eapply Forall2_length).
  - cbn. by rewrite length_make.
  - by eapply ingested_reads; [..|exact Hids].
  - by rewrite (getIdentityFromConf_reads (set_name (Name conf) msp)).
Qed.

End SetupFailure.

Section SetupRoots.
Context `{W : World}.
Implicit Types (msp : bccspmsp) (ids la : list Identity).

(** The errors of the certificate ingest are not of the class
    ConfigError. *)
Lemma getIdentityFromConf_Err msp (b : bytes) (e : error) :
  getIdentityFromConf msp b = Err e → ConfigError e = false.
Proof.
  unfold getIdentityFromConf. destruct b as [idBytes|]; [|by intros [= <-]].
  destruct (pem_Decode _) as [bl|]; [|by intros [= <-]].
  destruct (x509_ParseCertificate _) as [c|err]; cbn; [|by intros [= <-]].
  destruct (KeyImport_X509PublicKey _ _) as [k|err]; cbn; [done|by intros [= <-]].
Qed.

(** A list of blobs is ingested as a whole, or it has a first blob that
    is rejected. *)
Lemma ingested_or_rejected msp (blobs : list bytes) :
  (∃ ids, ingested msp blobs ids)
  ∨ (∃ pre b post ids e,
       blobs = pre ++ b :: post
       ∧ ingested msp pre ids
       ∧ getIdentityFromConf msp b = Err e).
Proof.
  induction blobs as [|c blobs IH]; [left; exists []; constructor|].
  destruct (getIdentityFromConf_outcome msp c) as [(i & Hi)|(e & He & _)].
  - destruct IH as [[ids Hids]|(pre & b & post & ids & e & -> & Hpre & Hb)].
    + left. exists (X509Identity i :: ids). by constructor.
    + right. exists (c :: pre), b, post, (X509Identity i :: ids), e.
      split; [done|]. split; [by constructor|done].
  - right. exists [], c, blobs, [], e.
    split; [done|]. split; [constructor|done].
Qed.

Lemma setupAdmins_Err (conf : FabricMSPConfig) msp
    (pre post : list bytes) (b : bytes) (e : error) ids :
  Admins conf = Some (pre ++ b :: post) →
  ingested msp pre ids →
  getIdentityFromConf msp b = Err e →
  setupAdmins conf msp
    = (Err e, set_admins (ids ++ replicate (S (length post)) NilIdentity) msp).
Proof.
  intros Hadmins Hids Hb. unfold setupAdmins. rewrite Hadmins.
  rewrite bind_run. unfold assign at 1.
  rewrite (fill_Err fieldAdmins b post e pre 0 _ ids).
  - rewrite length_app. cbn [length get set_admins admins set].
    by rewrite (make_partial ids (length post) (length pre))
      by (symmetry; by eapply Forall2_length).
  - cbn. by rewrite length_make.
  - by eapply ingested_reads; [..|exact Hids].
  - by rewrite (getIdentityFromConf_reads msp).
Qed.

(** C3, as the code has it. A configuration without root certificates
    never makes [Setup] succeed, and the error is not always of the class
    ConfigError: it is the missing-roots error when the admin list is
    absent or ingested as a whole, and otherwise the error of the first
    admin blob that the ingest rejects, which is returned before the roots
    are looked at and is not a ConfigError. The failed run assigns the name
    and the admins and nothing else: roots, intermediates, signer and verify
    options are the ones from before the call, so that [Validate] answers
    as it did before. A provider without verify options stays unable to
    validate; one that was set up stays usable, under the new name. And
    whenever [Setup] succeeds the provider has at least one root. *)
Theorem Setup_root_invariant msp (conf1 : option MSPConfig) :
  (∀ c conf,
     conf1 = Some c →
     Unmarshal_FabricMSPConfig (elems (Config c)) = Fine conf →
     len (RootCerts conf) = 0 →
     ∃ e la msp',
       Setup conf1 msp = (Err e, msp')
       ∧ msp' = set_admins la (set_name (Name conf) msp)
       ∧ ((e = ErrNoRootCerts ∧ ConfigError e = true
           ∧ match Admins conf with
             | None => la = admins msp
             | Some confAdmins =>
                 ingested (set_name (Name conf) msp) confAdmins la
             end)
          ∨ (ConfigError e = false
             ∧ ∃ pre b post ids,
                 Admins conf = Some (pre ++ b :: post)
                 ∧ ingested (set_name (Name conf) msp) pre ids
                 ∧ getIdentityFromConf (set_name (Name conf) msp) b = Err e
                 ∧ la = ids ++ replicate (S (length post)) NilIdentity))
       ∧ name msp' = Name conf
       ∧ rootCerts msp' = rootCerts msp
       ∧ intermediateCerts msp' = intermediateCerts msp
       ∧ signer msp' = signer msp
       ∧ opts msp' = opts msp
       ∧ (∀ id, Validate msp' id = Validate msp id)
       ∧ (opts msp = None → ∀ id, Validate msp' id ≠ Ok ()))
  ∧ (∀ msp', Setup conf1 msp = (Ok (), msp') → rootCerts msp' ≠ []).
Proof.
  split.
  - intros c conf -> Hconf Hroots. set (msp0 := set_name (Name conf) msp).
    assert (Hframe : ∀ la,
      name (set_admins la msp0) = Name conf
      ∧ rootCerts (set_admins la msp0) = rootCerts msp
      ∧ intermediateCerts (set_admins la msp0) = intermediateCerts msp
      ∧ signer (set_admins la msp0) = signer msp
      ∧ opts (set_admins la msp0) = opts msp
      ∧ (∀ id, Validate (set_admins la msp0) id = Validate msp id)
      ∧ (opts msp = None → ∀ id, Validate (set_admins la msp0) id ≠ Ok ())).
    { intros la. repeat split.
      intros Hopts id. by apply Validate_without_opts. }
    assert (Hwhole : ∀ la,
      match Admins conf with
      | None => la = admins msp
      | Some confAdmins => ingested msp0 confAdmins la
      end →
      Setup (Some c) msp = (Err ErrNoRootCerts, set_admins la msp0)).
    { intros la Hla. unfold Setup.
      rewrite bind_run. unfold call at 1. rewrite Hconf. cbn [check].
      rewrite bind_run. unfold assign at 1.
      rewrite bind_run, (setupAdmins_ingested conf _ la) by done.
      rewrite bind_run. unfold setupRootCerts.
      by rewrite bool_decide_eq_true_2. }
    destruct (Admins conf) as [confAdmins|] eqn:Hadmins.
    + destruct (ingested_or_rejected msp0 confAdmins)
        as [[la Hla]|(pre & b & post & ids & e & -> & Hpre & Hb)].
      * exists ErrNoRootCerts, la, (set_admins la msp0).
        split; [by apply Hwhole|]. split; [done|].
        split; [left; done|apply Hframe].
      * exists e, (ids ++ replicate (S (length post)) NilIdentity).
        eexists. split; [|split; [reflexivity|]].
        -- unfold Setup. unfold msp0 in Hpre, Hb.
           rewrite bind_run. unfold call at 1. rewrite Hconf. cbn [check].
           rewrite bind_run. unfold assign at 1.
           by rewrite bind_run,
             (setupAdmins_Err conf _ pre post b e ids Hadmins Hpre Hb).
        -- split; [|apply Hframe]. right.
           split; [by eapply getIdentityFromConf_Err|].
           by exists pre, b, post, ids.
    + exists ErrNoRootCerts, (admins msp), (set_admins (admins msp) msp0).
      split; [by apply Hwhole|]. split; [done|].
      split; [left; done|apply Hframe].
  - intros msp' Hrun. destruct conf1 as [c|]; [|done].
    destruct (Unmarshal_FabricMSPConfig (elems (Config c))) as [conf|err] eqn:Hconf.
    + destruct (Setup_run c conf msp Hconf)
        as (r & la & lr & li & sg & o & Hrun' & Hr).
      rewrite Hrun in Hrun'. injection Hrun' as <- ->.
      destruct Hr as (Hne & Hlen & _). cbn. intros ->. by cbn in Hlen.
    + unfold Setup in Hrun. rewrite bind_run in Hrun. unfold call in Hrun.
      rewrite Hconf in Hrun. done.
Qed.

End SetupRoots.

(** An admin and no root on a provider that was never set up: the
    missing-roots error, and a provider that still has neither roots nor
    verify options. A root and an admin: success, and a root in place. *)
Lemma Setup_root_invariant_witness :
  len (RootCerts (Toy.parsed ["Norg1"; "A-0Era"])) = 0
  ∧ (∃ msp', Setup (Toy.conf ["Norg1"; "A-0Era"]) Toy.fresh
               = (Err ErrNoRootCerts, msp')
       ∧ ConfigError ErrNoRootCerts = true
       ∧ name msp' = "org1"
       ∧ rootCerts msp' = [] ∧ opts msp' = None)
  ∧ (Setup (Toy.conf ["Norg1"; "R-0Crr"; "A-0Era"]) Toy.fresh).1 = Ok ()
  ∧ rootCerts Toy.org1 ≠ [].
Proof.
  split; [reflexivity|]. split; [|split; [reflexivity|]].
  - destruct (Setup_root_invariant Toy.fresh (Toy.conf ["Norg1"; "A-0Era"]))
      as [Hfail _].
    destruct (Hfail _ (Toy.parsed ["Norg1"; "A-0Era"]) eq_refl eq_refl eq_refl)
      as (e & la & msp' & Hrun & _ & _ & Hname & Hroots & _ & _ & Hopts & _).
    exists msp'. split; [|by repeat split].
    rewrite Hrun. f_equal. f_equal.
    assert (He : (Setup (Toy.conf ["Norg1"; "A-0Era"]) Toy.fresh).1
                 = Err ErrNoRootCerts) by reflexivity.
    rewrite Hrun in He. by injection He.
  - destruct (Setup_root_invariant Toy.fresh
                (Toy.conf ["Norg1"; "R-0Crr"; "A-0Era"])) as [_ Hok].
    apply (Hok Toy.org1). unfold Toy.org1. by apply run_eq.
Defined.

(** C3, as stated, fails twice. With no root and an admin blob that is
    not PEM, [Setup] returns the decode error of the ingest, which is not
    a ConfigError. And a configuration without roots, loaded into the
    provider org1, fails with the missing-roots error and leaves a usable
    provider: renamed org2, it validates bob with the root of org1 and
    deserializes identities that claim org2. *)
Lemma Setup_no_roots_other_outcomes :
  len (RootCerts (Toy.parsed ["Norg1"; "Axx"])) = 0
  ∧ (Setup (Toy.conf ["Norg1"; "Axx"]) Toy.fresh).1 = Err ErrConfPemDecode
  ∧ ConfigError ErrConfPemDecode = false
  ∧ len (RootCerts (Toy.parsed ["Norg2"])) = 0
  ∧ (Setup (Toy.conf ["Norg2"]) Toy.org1).1 = Err ErrNoRootCerts
  ∧ name (Setup (Toy.conf ["Norg2"]) Toy.org1).2 = "org2"
  ∧ rootCerts (Setup (Toy.conf ["Norg2"]) Toy.org1).2 = rootCerts Toy.org1
  ∧ rootCerts Toy.org1 ≠ []
  ∧ Validate (Setup (Toy.conf ["Norg2"]) Toy.org1).2 Toy.bob = Ok ()
  ∧ DeserializeIdentity (Setup (Toy.conf ["Norg2"]) Toy.org1).2
      (Toy.wire "org2" "-0Erm") = Ok Toy.mallory.
Proof. repeat split; run. Qed.

(** ** The further properties on the small world *)

(** A run on the small world, by evaluation of its outcome. *)
Ltac runs :=
  unfold Toy.org1, Toy.full, Toy.renamed; apply run_eq; reflexivity.

Lemma Setup_Ok_trust_material_witness :
  Unmarshal_FabricMSPConfig (World:=Toy.world)
      (elems (Config (Toy.mspConfig Toy.fullLines)))
    = Fine (Toy.parsed Toy.fullLines)
  ∧ Setup (Some (Toy.mspConfig Toy.fullLines)) Toy.fresh = (Ok (), Toy.full)
  ∧ name Toy.full = "org1"
  ∧ length (rootCerts Toy.full) = 1
  ∧ length (intermediateCerts Toy.full) = 1.
Proof.
  split; [reflexivity|]. split; [runs|].
  destruct (Setup_Ok_trust_material (Toy.mspConfig Toy.fullLines)
              (Toy.parsed Toy.fullLines) Toy.fresh Toy.full)
    as (Hname & Hroots & Hints & _); [reflexivity|runs|].
  split; [exact Hname|].
  split; [exact (eq_sym (Forall2_length _ _ _ Hroots))
         |exact (eq_sym (Forall2_length _ _ _ Hints))].
Defined.

(** Setting up the provider [seeded] under a new name, with a
    configuration that has a root only, keeps its admin and its signer
    and empties its intermediates. *)
Lemma Setup_Ok_absent_parts_witness :
  Unmarshal_FabricMSPConfig (World:=Toy.world)
      (elems (Config (Toy.mspConfig Toy.renameLines)))
    = Fine (Toy.parsed Toy.renameLines)
  ∧ Setup (Some (Toy.mspConfig Toy.renameLines)) Toy.seeded
    = (Ok (), Toy.renamed)
  ∧ admins Toy.renamed = admins Toy.seeded
  ∧ signer Toy.renamed = signer Toy.seeded
  ∧ intermediateCerts Toy.renamed = [].
Proof.
  split; [reflexivity|]. split; [runs|].
  exact (Setup_Ok_absent_parts (Toy.mspConfig Toy.renameLines)
           (Toy.parsed Toy.renameLines) Toy.seeded Toy.renamed
           eq_refl ltac:(runs)).
Defined.

Lemma Setup_Ok_iff_witness :
  Unmarshal_FabricMSPConfig (World:=Toy.world)
      (elems (Config (Toy.mspConfig Toy.fullLines)))
    = Fine (Toy.parsed Toy.fullLines)
  ∧ len (RootCerts (Toy.parsed Toy.fullLines)) ≠ 0
  ∧ Forall (λ b, ∃ id, getIdentityFromConf Toy.org2 b = Ok id)
      (elems (Admins (Toy.parsed Toy.fullLines))
         ++ elems (RootCerts (Toy.parsed Toy.fullLines))
         ++ elems (IntermediateCerts (Toy.parsed Toy.fullLines)))
  ∧ ∃ msp', Setup (Some (Toy.mspConfig Toy.fullLines)) Toy.org2 = (Ok (), msp').
Proof.
  assert (Hlen : len (RootCerts (Toy.parsed Toy.fullLines)) ≠ 0) by run.
  assert (Hall : Forall (λ b, ∃ id, getIdentityFromConf Toy.org2 b = Ok id)
      (elems (Admins (Toy.parsed Toy.fullLines))
         ++ elems (RootCerts (Toy.parsed Toy.fullLines))
         ++ elems (IntermediateCerts (Toy.parsed Toy.fullLines)))).
  { repeat constructor; eexists; reflexivity. }
  split; [reflexivity|]. split; [exact Hlen|]. split; [exact Hall|].
  apply (proj2 (Setup_Ok_iff (Toy.mspConfig Toy.fullLines)
                  (Toy.parsed Toy.fullLines) Toy.org2 eq_refl)).
  split; [exact Hlen|]. split; [exact Hall|].
  eexists. reflexivity.
Defined.

(** The configuration of [full] gives the same provider when it is
    loaded into org2, which has another name and no intermediates. *)
Lemma Setup_Ok_replaces_witness :
  Unmarshal_FabricMSPConfig (World:=Toy.world)
      (elems (Config (Toy.mspConfig Toy.fullLines)))
    = Fine (Toy.parsed Toy.fullLines)
  ∧ bccsp Toy.org2 = bccsp Toy.fresh
  ∧ name Toy.org2 = "org2"
  ∧ Setup (Some (Toy.mspConfig Toy.fullLines)) Toy.fresh = (Ok (), Toy.full)
  ∧ Setup (Some (Toy.mspConfig Toy.fullLines)) Toy.org2 = (Ok (), Toy.full).
Proof.
  split; [reflexivity|]. split; [reflexivity|]. split; [reflexivity|].
  split; [runs|].
  exact (Setup_Ok_replaces (Toy.mspConfig Toy.fullLines)
           (Toy.parsed Toy.fullLines) Toy.fresh Toy.org2 Toy.full
           eq_refl eq_refl I I ltac:(runs)).
Defined.

Lemma Setup_idempotent_witness :
  Setup (Toy.conf Toy.org1Lines) Toy.fresh = (Ok (), Toy.org1Fields)
  ∧ Setup (Toy.conf Toy.org1Lines) Toy.org1Fields = (Ok (), Toy.org1Fields).
Proof.
  split; [reflexivity|].
  exact (Setup_idempotent (Toy.conf Toy.org1Lines) Toy.fresh Toy.org1Fields
           eq_refl).
Defined.

Lemma Setup_Panic_private_key_witness :
  Setup (Toy.conf ["Norg1"; "R-0Crr"; "P-0Era"; "Kb"]) Toy.fresh
    = (Panic NilDereference,
       (Setup (Toy.conf ["Norg1"; "R-0Crr"; "P-0Era"; "Kb"]) Toy.fresh).2)
  ∧ ∃ c conf sidInfo,
      Toy.conf ["Norg1"; "R-0Crr"; "P-0Era"; "Kb"] = Some c
      ∧ Unmarshal_FabricMSPConfig (World:=Toy.world) (elems (Config c))
          = Fine conf
      ∧ SigningIdentity conf = Some sidInfo
      ∧ certificateOf (W:=Toy.world) (PublicSigner sidInfo) ≠ None
      ∧ match PrivateSigner sidInfo with
        | None => True
        | Some ki =>
            pem_Decode (World:=Toy.world) (elems (KeyMaterial ki)) = None
        end.
Proof.
  split; [runs|].
  exact (proj2 (Setup_Panic_private_key
                  (Toy.conf ["Norg1"; "R-0Crr"; "P-0Era"; "Kb"]) Toy.fresh
                  NilDereference _ ltac:(runs))).
Defined.

Lemma Validate_after_Setup_witness :
  Unmarshal_FabricMSPConfig (World:=Toy.world)
      (elems (Config (Toy.mspConfig Toy.org1Lines)))
    = Fine (Toy.parsed Toy.org1Lines)
  ∧ Setup (Some (Toy.mspConfig Toy.org1Lines)) Toy.fresh = (Ok (), Toy.org1)
  ∧ ∃ roots intermediates,
      Forall2 (λ b c, certificateOf b = Some c)
        (elems (RootCerts (Toy.parsed Toy.org1Lines))) roots
      ∧ Forall2 (λ b c, certificateOf b = Some c)
          (elems (IntermediateCerts (Toy.parsed Toy.org1Lines))) intermediates
      ∧ Validate Toy.org1 (X509Identity Toy.alice) =
          if cert_IsCA (cert Toy.alice) then Err ErrCAUsedAsIdentity
          else match Certificate_Verify (cert Toy.alice) roots intermediates with
               | Some err => Err (ErrVerify err)
               | None => Ok ()
               end.
Proof.
  split; [reflexivity|]. split; [runs|].
  exact (Validate_after_Setup (Toy.mspConfig Toy.org1Lines)
           (Toy.parsed Toy.org1Lines) Toy.fresh Toy.org1 Toy.alice
           eq_refl ltac:(runs)).
Defined.

Lemma GetDefaultSigningIdentity_after_Setup_witness :
  Unmarshal_FabricMSPConfig (World:=Toy.world)
      (elems (Config (Toy.mspConfig Toy.fullLines)))
    = Fine (Toy.parsed Toy.fullLines)
  ∧ SigningIdentity (Toy.parsed Toy.fullLines)
    = Some {| PublicSigner := Some (Toy.text "-0Eis");
              PrivateSigner := Some {| KeyIdentifier := "";
                                       KeyMaterial := Some (Toy.text "-s") |} |}
  ∧ Setup (Some (Toy.mspConfig Toy.fullLines)) Toy.fresh = (Ok (), Toy.full)
  ∧ ∃ sid, GetDefaultSigningIdentity Toy.full = Fine sid
      ∧ ident (base sid) = {| Mspid := "org1"; Id := "DEFAULT" |}.
Proof.
  split; [reflexivity|]. split; [reflexivity|]. split; [runs|].
  destruct (GetDefaultSigningIdentity_after_Setup
              (Toy.mspConfig Toy.fullLines) (Toy.parsed Toy.fullLines) _
              Toy.fresh Toy.full eq_refl eq_refl ltac:(runs))
    as (sid & Hget & _ & Hident & _).
  exists sid. split; [exact Hget|exact Hident].
Defined.

Lemma GetDefaultSigningIdentity_without_record_witness :
  NewBccspMsp (Fine (Toy.csp : @BCCSP Toy.world)) = Fine Toy.fresh
  ∧ Unmarshal_FabricMSPConfig (World:=Toy.world)
      (elems (Config (Toy.mspConfig Toy.org1Lines)))
    = Fine (Toy.parsed Toy.org1Lines)
  ∧ SigningIdentity (Toy.parsed Toy.org1Lines) = None
  ∧ GetDefaultSigningIdentity Toy.org1
    = Failed "This MSP does not possess a valid default signing identity".
Proof.
  split; [reflexivity|]. split; [reflexivity|]. split; [reflexivity|].
  exact (proj2 (GetDefaultSigningIdentity_without_record
                  (Toy.csp : @BCCSP Toy.world) Toy.fresh
                  (Toy.mspConfig Toy.org1Lines) (Toy.parsed Toy.org1Lines)
                  eq_refl eq_refl eq_refl)).
Defined.

Lemma DeserializeIdentity_returns_witness :
  DeserializeIdentity Toy.org1 (Toy.wire "org1" "-0Erb") = Ok Toy.bob
  ∧ ∃ i : identity,
      Toy.bob = X509Identity i
      ∧ ident i = {| Mspid := "org1"; Id := "DEFAULT" |}.
Proof.
  split; [reflexivity|].
  destruct (DeserializeIdentity_returns Toy.org1 (Toy.wire "org1" "-0Erb")
              Toy.bob eq_refl) as (i & sId & Hbob & _ & _ & Hident & _).
  exists i. split; [exact Hbob|exact Hident].
Defined.

(** alice satisfies the IDENTITY principal made of the serialized alice
    on a provider that was never set up. *)
Lemma SatisfiesPrincipal_IDENTITY_witness :
  PrincipalClassification (Toy.identityPrincipal (Toy.wire "org1" "-0Era"))
    = MSPPrincipal_IDENTITY
  ∧ Serialize (X509Identity Toy.alice)
    = Ok (Fine (elems (Toy.wire "org1" "-0Era")))
  ∧ Validate Toy.fresh (X509Identity Toy.alice) = Err ErrInvalidMspInstance
  ∧ SatisfiesPrincipal Toy.fresh (X509Identity Toy.alice)
      (Some (Toy.identityPrincipal (Toy.wire "org1" "-0Era")))
    = Ok ().
Proof.
  split; [reflexivity|]. split; [reflexivity|]. split; [reflexivity|].
  exact (proj2 (SatisfiesPrincipal_IDENTITY Toy.fresh Toy.org1
                  (X509Identity Toy.alice)
                  (Toy.identityPrincipal (Toy.wire "org1" "-0Era"))
                  (elems (Toy.wire "org1" "-0Era")) eq_refl eq_refl)).
Defined.

Lemma SatisfiesPrincipal_Panic_iff_witness :
  GetMSPIdentifier Toy.bob = Ok "org1"
  ∧ Serialize Toy.bob = Ok (Fine (elems (Toy.wire "org1" "-0Erb")))
  ∧ SatisfiesPrincipal Toy.org1 Toy.bob (Some (Toy.rolePrincipal "Morg1"))
    ≠ Panic (Explicit "Not yet implemented").
Proof.
  split; [reflexivity|]. split; [reflexivity|]. intros Hpanic.
  apply (SatisfiesPrincipal_Panic_iff Toy.org1 Toy.bob _ _ "org1"
           (Fine (elems (Toy.wire "org1" "-0Erb"))) eq_refl eq_refl) in Hpanic
    as (_ & [Hou|(_ & mspRole & Hrole & _ & Hadmin)]).
  - discriminate Hou.
  - injection Hrole as <-. discriminate Hadmin.
Defined.

Lemma SatisfiesPrincipal_MEMBER_after_Setup_witness :
  Unmarshal_FabricMSPConfig (World:=Toy.world)
      (elems (Config (Toy.mspConfig Toy.org1Lines)))
    = Fine (Toy.parsed Toy.org1Lines)
  ∧ Setup (Some (Toy.mspConfig Toy.org1Lines)) Toy.fresh = (Ok (), Toy.org1)
  ∧ DeserializeIdentity Toy.org1 (Toy.wire "org1" "-0Erb") = Ok Toy.bob
  ∧ Unmarshal_MSPRole (World:=Toy.world)
      (elems (Principal (Toy.rolePrincipal "Morg1")))
    = Fine {| MSPIdentifier := "org1"; Role := MSPRole_MEMBER |}
  ∧ SatisfiesPrincipal Toy.org1 Toy.bob (Some (Toy.rolePrincipal "Morg1"))
    = Ok ()
  ∧ ∃ i : identity, Toy.bob = X509Identity i.
Proof.
  split; [reflexivity|]. split; [runs|]. split; [reflexivity|].
  split; [reflexivity|]. split; [reflexivity|].
  destruct (SatisfiesPrincipal_MEMBER_after_Setup
              (Toy.mspConfig Toy.org1Lines) (Toy.parsed Toy.org1Lines)
              Toy.fresh Toy.org1 (Toy.wire "org1" "-0Erb") Toy.bob
              (Toy.rolePrincipal "Morg1")
              {| MSPIdentifier := "org1"; Role := MSPRole_MEMBER |}
              eq_refl ltac:(runs) eq_refl eq_refl eq_refl eq_refl eq_refl)
    as (i & _ & _ & Hbob & _).
  exists i. exact Hbob.
Defined.

(** Three admin certificates of which the second is not PEM, and no
    root: the error is the one of the second admin, and the admin slice
    holds alice and two nil interface values. *)
Lemma Setup_Err_admin_witness :
  Admins (Toy.parsed ["Norg1"; "A-0Era"; "Axx"; "A-0Erb"])
    = Some ([Some (Toy.text "-0Era")]
              ++ Some (Toy.text "xx") :: [Some (Toy.text "-0Erb")])
  ∧ RootCerts (Toy.parsed ["Norg1"; "A-0Era"; "Axx"; "A-0Erb"]) = None
  ∧ getIdentityFromConf (set_name "org1" Toy.fresh) (Some (Toy.text "xx"))
    = Err ErrConfPemDecode
  ∧ Setup (Toy.conf ["Norg1"; "A-0Era"; "Axx"; "A-0Erb"]) Toy.fresh
    = (Err ErrConfPemDecode,
       set_admins [X509Identity Toy.alice; NilIdentity; NilIdentity]
         (set_name "org1" Toy.fresh)).
Proof.
  split; [reflexivity|]. split; [reflexivity|]. split; [reflexivity|].
  apply (Setup_Err_admin (Toy.mspConfig ["Norg1"; "A-0Era"; "Axx"; "A-0Erb"])
           (Toy.parsed ["Norg1"; "A-0Era"; "Axx"; "A-0Erb"]) Toy.fresh
           [Some (Toy.text "-0Era")] [Some (Toy.text "-0Erb")]
           (Some (Toy.text "xx")) ErrConfPemDecode [X509Identity Toy.alice]).
  - reflexivity.
  - reflexivity.
  - repeat constructor.
  - reflexivity.
Defined.

(** An admin and two roots of which the second is not PEM: the error is
    the one of the second root, the admin is in place and the root slice
    holds the first root and a nil interface value. *)
Lemma Setup_Err_root_witness :
  Admins (Toy.parsed ["Norg1"; "A-0Era"; "R-0Crr"; "Rxx"])
    = Some [Some (Toy.text "-0Era")]
  ∧ elems (RootCerts (Toy.parsed ["Norg1"; "A-0Era"; "R-0Crr"; "Rxx"]))
    = [Some (Toy.text "-0Crr")] ++ Some (Toy.text "xx") :: []
  ∧ getIdentityFromConf (set_name "org1" Toy.fresh) (Some (Toy.text "xx"))
    = Err ErrConfPemDecode
  ∧ Setup (Toy.conf ["Norg1"; "A-0Era"; "R-0Crr"; "Rxx"]) Toy.fresh
    = (Err ErrConfPemDecode,
       set_rootCerts
         [X509Identity {| ident := {| Mspid := "org1"; Id := "IDENTITY" |};
                          cert := cert Toy.rootIdentity;
                          pk := pk Toy.rootIdentity |};
          NilIdentity]
         (set_admins [X509Identity Toy.alice] (set_name "org1" Toy.fresh))).
Proof.
  split; [reflexivity|]. split; [reflexivity|]. split; [reflexivity|].
  apply (Setup_Err_root (Toy.mspConfig ["Norg1"; "A-0Era"; "R-0Crr"; "Rxx"])
           (Toy.parsed ["Norg1"; "A-0Era"; "R-0Crr"; "Rxx"]) Toy.fresh
           [Some (Toy.text "-0Crr")] [] (Some (Toy.text "xx"))
           ErrConfPemDecode [X509Identity Toy.alice]
           [X509Identity {| ident := {| Mspid := "org1"; Id := "IDENTITY" |};
                            cert := cert Toy.rootIdentity;
                            pk := pk Toy.rootIdentity |}]).
  - reflexivity.
  - repeat constructor.
  - reflexivity.
  - repeat constructor.
  - reflexivity.
Defined.

(** alice under the name of another provider and with another local id
    is as valid to org1 as alice, and as valid to org2, which has the same
    root. *)
Lemma Validate_certificate_only_witness :
  opts Toy.org1 = opts Toy.org2
  ∧ name Toy.org1 ≠ name Toy.org2
  ∧ Validate Toy.org1 (X509Identity Toy.alice) = Ok ()
  ∧ Validate Toy.org2
      (X509Identity {| ident := {| Mspid := "org3"; Id := "DEFAULT" |};
                       cert := cert Toy.alice; pk := pk Toy.rootIdentity |})
    = Ok ().
Proof.
  assert (Hopts : opts Toy.org1 = opts Toy.org2) by reflexivity.
  split; [exact Hopts|]. split; [intros H; discriminate H|].
  split; [reflexivity|].
  destruct (Validate_certificate_only Toy.org1 Toy.org2 Toy.alice
              {| ident := {| Mspid := "org3"; Id := "DEFAULT" |};
                 cert := cert Toy.alice; pk := pk Toy.rootIdentity |}
              eq_refl Hopts) as [<- _].
  reflexivity.
Defined.

End msp.
